(** * Warbler: the request handlers of [app.py] over a relational store

    The handlers of [app.py] are embedded as computations in a small
    state-and-exception monad.  The state is the request context: the
    committed tables, the working copy held by the ORM session, the
    session cookie, the flashed messages and the request global [g.user].
    A handler either returns a response, aborts with 404 (which Flask turns
    into the 404 page) or raises a Python exception that no handler catches. *)

From Stdlib Require Import ZArith List Bool String Lia Permutation Sorted.
From Stdlib Require Import DecimalString.
Import ListNotations.
Local Open Scope string_scope.
Local Open Scope Z_scope.
Local Open Scope list_scope.

(** ** Tables *)

Record User := mkUser {
  u_id : Z;
  username : string;
  email : string;
  password : string;            (* the digest, never the plaintext *)
  image_url : string;
  header_image_url : string;
  bio : string;
  location : string
}.

Record Message := mkMessage {
  m_id : Z;
  text : string;
  timestamp : Z;
  user_id : Z
}.

(** Modelled from the spec: [models.py] is not part of the sources.  The
    tables are the four relations of the persisted layout: [users],
    [messages], [follows (follower_id, followed_id)] and
    [likes (user_id, message_id)].  The edge relations are plain row lists:
    the spec records that the source lets duplicate follow rows accumulate. *)
Record DB := mkDB {
  users : list User;
  messages : list Message;
  follows : list (Z * Z);
  likes : list (Z * Z)
}.

Definition user_eqb (a b : User) : bool :=
  (u_id a =? u_id b) && String.eqb (username a) (username b)
  && String.eqb (email a) (email b) && String.eqb (password a) (password b)
  && String.eqb (image_url a) (image_url b)
  && String.eqb (header_image_url a) (header_image_url b)
  && String.eqb (bio a) (bio b) && String.eqb (location a) (location b).

Definition edge_eqb (e f : Z * Z) : bool :=
  (fst e =? fst f) && (snd e =? snd f).

(** [User.query.get(id)] and [Message.query.get(id)]. *)
Definition User_query_get (d : DB) (id : Z) : option User :=
  find (fun u => u_id u =? id) (users d).

Definition Message_query_get (d : DB) (id : Z) : option Message :=
  find (fun m => m_id m =? id) (messages d).

(** [User.query.filter_by(username=...).first()]. *)
Definition User_query_by_username (d : DB) (name : string) : option User :=
  find (fun u => String.eqb (username u) name) (users d).

(** ** Relationship collections

    Modelled from the spec: the relationships [User.following] and
    [User.likes] are declared in [models.py], which is missing.  They are
    the rows of the join table that start at the user, in row order, and
    behave as Python lists: [append] adds a row at the end, [remove] deletes
    the first equal element and raises [ValueError] when there is none. *)

Definition following (d : DB) (uid : Z) : list Z :=
  map snd (filter (fun e => fst e =? uid) (follows d)).

Definition user_likes (d : DB) (uid : Z) : list Z :=
  map snd (filter (fun e => fst e =? uid) (likes d)).

Definition following_append (d : DB) (uid fid : Z) : DB :=
  mkDB (users d) (messages d) (follows d ++ [(uid, fid)]) (likes d).

Fixpoint remove_first (e : Z * Z) (l : list (Z * Z)) : option (list (Z * Z)) :=
  match l with
  | [] => None
  | x :: r =>
      if edge_eqb x e then Some r
      else match remove_first e r with
           | Some r' => Some (x :: r')
           | None => None
           end
  end.

(** [user.following.remove(other)]: [None] stands for the [ValueError] of
    [list.remove].  [other] is what [User.query.get] returned, so it can be
    [None], which is never an element of the collection. *)
Definition following_remove (d : DB) (uid : Z) (other : option User) : option DB :=
  match other with
  | None => None
  | Some o =>
      match remove_first (uid, u_id o) (follows d) with
      | Some fs => Some (mkDB (users d) (messages d) fs (likes d))
      | None => None
      end
  end.

Definition likes_append (d : DB) (uid mid : Z) : DB :=
  mkDB (users d) (messages d) (follows d) (likes d ++ [(uid, mid)]).

(** [user.likes = l]: the rows of the user are replaced by [l]. *)
Definition likes_assign (d : DB) (uid : Z) (l : list Z) : DB :=
  mkDB (users d) (messages d) (follows d)
       (filter (fun e => negb (fst e =? uid)) (likes d) ++ map (pair uid) l).

(** Modelled from the spec: [User.is_following] and [User.is_followed_by]
    live in [models.py]; they are the pure edge queries of the spec. *)
Definition is_following (d : DB) (a b : Z) : bool :=
  existsb (edge_eqb (a, b)) (follows d).

Definition is_followed_by (d : DB) (a b : Z) : bool :=
  is_following d b a.

Definition count_edge (e : Z * Z) (l : list (Z * Z)) : nat :=
  List.length (filter (edge_eqb e) l).

(** ** Query helpers: ORDER BY timestamp DESC, LIMIT *)

Fixpoint insert_desc (m : Message) (l : list Message) : list Message :=
  match l with
  | [] => [m]
  | x :: r =>
      if timestamp x <=? timestamp m then m :: l else x :: insert_desc m r
  end.

Definition order_by_timestamp_desc (l : list Message) : list Message :=
  fold_right insert_desc [] l.

Definition limit (n : nat) (l : list Message) : list Message := firstn n l.

Definition in_ (ids : list Z) (x : Z) : bool := existsb (Z.eqb x) ids.

(** ** Request context and the handler monad *)

Inductive Exn := AttributeError | ValueError | IntegrityError.

Inductive Signal :=
| Abort404                 (* [get_or_404]: rendered by the 404 error handler *)
| Raise (e : Exn).         (* an exception that reaches the server *)

Inductive Result (A : Type) :=
| Ok (a : A)
| Stop (s : Signal).
Arguments Ok {A} a.
Arguments Stop {A} s.

Record World := mkWorld {
  store : DB;                            (* committed tables *)
  session : option Z;                    (* session[CURR_USER_KEY] *)
  flashes : list (string * string)       (* (message, category) *)
}.

Record Ctx := mkCtx {
  world : World;
  pending : DB;                          (* working copy of the ORM session *)
  g_user : option User                   (* g.user *)
}.

Definition M (A : Type) : Type := Ctx -> Result A * Ctx.

Definition ret {A} (a : A) : M A := fun c => (Ok a, c).

Definition bind {A B} (m : M A) (k : A -> M B) : M B :=
  fun c => match m c with
           | (Ok a, c') => k a c'
           | (Stop s, c') => (Stop s, c')
           end.

Declare Scope handler_scope.
Delimit Scope handler_scope with handler.
Notation "x <- m ;; k" := (bind m (fun x => k))
  (at level 100, m at next level, right associativity) : handler_scope.
Notation "m ;; k" := (bind m (fun _ => k))
  (at level 100, right associativity) : handler_scope.
Local Open Scope handler_scope.

Definition raise {A} (e : Exn) : M A := fun c => (Stop (Raise e), c).
Definition abort404 {A} : M A := fun c => (Stop Abort404, c).

Definition flash (msg cat : string) : M unit :=
  fun c =>
    let w := world c in
    (Ok tt, mkCtx (mkWorld (store w) (session w) (flashes w ++ [(msg, cat)]))
                  (pending c) (g_user c)).

Definition get_g_user : M (option User) := fun c => (Ok (g_user c), c).

(** An attribute access [g.user.x]: [AttributeError] when [g.user] is [None]. *)
Definition g_user_attr : M User :=
  fun c => match g_user c with
           | Some u => (Ok u, c)
           | None => (Stop (Raise AttributeError), c)
           end.

Definition get_pending : M DB := fun c => (Ok (pending c), c).

Definition set_pending (d : DB) : M unit :=
  fun c => (Ok tt, mkCtx (world c) d (g_user c)).

Definition set_session (s : option Z) : M unit :=
  fun c =>
    let w := world c in
    (Ok tt, mkCtx (mkWorld (store w) s (flashes w)) (pending c) (g_user c)).

(** The rows a commit writes to [users] are the rows of the working copy
    that the committed table does not hold as they are.  The unique
    constraints on [username] and [email] are checked on those rows. *)
Definition dirty_users (st pend : DB) : list User :=
  filter (fun u => negb (existsb (user_eqb u) (users st))) (users pend).

Definition collides (pend : DB) (u : User) : bool :=
  existsb (fun v => negb (u_id v =? u_id u)
                    && (String.eqb (username v) (username u)
                        || String.eqb (email v) (email u)))
          (users pend).

Definition integrity_ok (st pend : DB) : bool :=
  forallb (fun u => negb (collides pend u)) (dirty_users st pend).

(** [db.session.commit()]. *)
Definition commit : M unit :=
  fun c =>
    let w := world c in
    if integrity_ok (store w) (pending c)
    then (Ok tt, mkCtx (mkWorld (pending c) (session w) (flashes w))
                       (pending c) (g_user c))
    else (Stop (Raise IntegrityError), c).

Definition User_query_get_or_404 (id : Z) : M User :=
  d <- get_pending ;;
  match User_query_get d id with
  | Some u => ret u
  | None => abort404
  end.

Definition Message_query_get_or_404 (id : Z) : M Message :=
  d <- get_pending ;;
  match Message_query_get d id with
  | Some m => ret m
  | None => abort404
  end.

(** ** Responses *)

Inductive Value :=
| VMessages (ms : list Message)
| VIds (ids : list Z)
| VId (id : Z)
| VForm.

Inductive Response :=
| Redirect (location : string)
| RenderTemplate (template : string) (context : list (string * Value)).

Definition str (z : Z) : string := NilZero.string_of_int (Z.to_int z).

(** ** Session handling *)

(** [add_user_to_g], the [before_request] hook. *)
Definition add_user_to_g (w : World) : Ctx :=
  mkCtx w (store w)
        match session w with
        | Some id => User_query_get (store w) id
        | None => None
        end.

Definition do_login (u : User) : M unit := set_session (Some (u_id u)).

Definition do_logout : M unit := set_session None.

(** [do_authorize] returns the redirect; it does not stop the caller. *)
Definition do_authorize : M (option Response) :=
  u <- get_g_user ;;
  match u with
  | None => flash "Access unauthorized." "danger" ;; ret (Some (Redirect "/"))
  | Some _ => ret None
  end.

(** One request: the hook, then the handler; the working copy and [g] are
    dropped when the request ends, whatever its outcome. *)
Definition handle {A} (h : M A) (w : World) : Result A * World :=
  let (r, c) := h (add_user_to_g w) in (r, world c).

(** ** Homepage *)

Definition homepage : M Response :=
  u <- get_g_user ;;
  match u with
  | Some me =>
      d <- get_pending ;;
      let following_ids := following d (u_id me) ++ [u_id me] in
      let msgs :=
        limit 100 (order_by_timestamp_desc
                     (filter (fun m => in_ following_ids (user_id m))
                             (messages d))) in
      let likes_ids := user_likes d (u_id me) in
      ret (RenderTemplate "home.html"
             [("messages", VMessages msgs); ("likes", VIds likes_ids)])
  | None => ret (RenderTemplate "home-anon.html" [])
  end.

(** ** Follow and unfollow *)

Definition add_follow (follow_id : Z) : M Response :=
  do_authorize ;;
  followed_user <- User_query_get_or_404 follow_id ;;
  me <- g_user_attr ;;
  d <- get_pending ;;
  set_pending (following_append d (u_id me) (u_id followed_user)) ;;
  flash "User followed" "success" ;;
  commit ;;
  ret (Redirect ("/users/" ++ str (u_id me) ++ "/following")%string).

Definition stop_following (follow_id : Z) : M Response :=
  do_authorize ;;
  d <- get_pending ;;
  let followed_user := User_query_get d follow_id in
  me <- g_user_attr ;;
  match following_remove d (u_id me) followed_user with
  | Some d' => set_pending d'
  | None => raise ValueError
  end ;;
  flash "User unfollowed" "danger" ;;
  commit ;;
  ret (Redirect ("/users/" ++ str (u_id me) ++ "/following")%string).

(** ** Messages *)

Definition fresh_id (ids : list Z) : Z := 1 + fold_right Z.max 0 ids.

(** [g.user.messages.append(msg)] for a new [Message(text=...)]: the row
    gets the owner's id, a fresh key and the creation time. *)
Definition messages_append (d : DB) (uid : Z) (txt : string) (now : Z) : DB :=
  mkDB (users d)
       (messages d ++ [mkMessage (fresh_id (map m_id (messages d))) txt now uid])
       (follows d) (likes d).

(** [db.session.delete(msg)]. *)
Definition delete_message (d : DB) (msg : Message) : DB :=
  mkDB (users d)
       (filter (fun m => negb (m_id m =? m_id msg)) (messages d))
       (follows d) (likes d).

(** [form] is [Some text] when [validate_on_submit()] holds. *)
Definition messages_add (form : option string) (now : Z) : M Response :=
  do_authorize ;;
  match form with
  | Some txt =>
      me <- g_user_attr ;;
      d <- get_pending ;;
      set_pending (messages_append d (u_id me) txt now) ;;
      commit ;;
      ret (Redirect ("/users/" ++ str (u_id me))%string)
  | None => ret (RenderTemplate "messages/new.html" [("form"%string, VForm)])
  end.

Definition messages_destroy (message_id : Z) : M Response :=
  do_authorize ;;
  msg <- Message_query_get_or_404 message_id ;;
  me <- g_user_attr ;;
  if negb (user_id msg =? u_id me) then
    flash "Access unauthorized." "danger" ;;
    ret (Redirect "/")
  else
    d <- get_pending ;;
    set_pending (delete_message d msg) ;;
    commit ;;
    ret (Redirect ("/users/" ++ str (u_id me))%string).

(** ** Likes *)

Definition like_message (msg_id : Z) : M Response :=
  do_authorize ;;
  like_msg <- Message_query_get_or_404 msg_id ;;
  me <- g_user_attr ;;
  if user_id like_msg =? u_id me then
    flash "you cannot like your own messages" "danger" ;;
    ret (Redirect ("/users/" ++ str (u_id me))%string)
  else
    d <- get_pending ;;
    (if in_ (user_likes d (u_id me)) (m_id like_msg) then
       flash "message unliked!" "danger" ;;
       set_pending
         (likes_assign d (u_id me)
            (filter (fun l => negb (l =? m_id like_msg))
                    (user_likes d (u_id me))))
     else
       flash "message liked!" "success" ;;
       set_pending (likes_append d (u_id me) (m_id like_msg))) ;;
    commit ;;
    ret (Redirect "/").

(** ** Signup, login and profile: the handlers that use the credential store *)

Record UserAddForm := mkUserAddForm {
  sf_username : string;
  sf_password : string;
  sf_email : string;
  sf_image_url : string
}.

Record LoginForm := mkLoginForm {
  lf_username : string;
  lf_password : string
}.

Record EditUserForm := mkEditUserForm {
  ef_username : string;
  ef_email : string;
  ef_image_url : string;
  ef_header_image_url : string;
  ef_bio : string;
  ef_location : string;
  ef_password : string
}.

Definition exn_eqb (a b : Exn) : bool :=
  match a, b with
  | AttributeError, AttributeError => true
  | ValueError, ValueError => true
  | IntegrityError, IntegrityError => true
  | _, _ => false
  end.

(** [try: m except e: h]. *)
Definition try_except {A} (m : M A) (e : Exn) (h : M A) : M A :=
  fun c => match m c with
           | (Stop (Raise e'), c') =>
               if exn_eqb e e' then h c' else (Stop (Raise e'), c')
           | r => r
           end.

Definition users_add (d : DB) (u : User) : DB :=
  mkDB (users d ++ [u]) (messages d) (follows d) (likes d).

Definition users_update (d : DB) (u' : User) : DB :=
  mkDB (map (fun u => if u_id u =? u_id u' then u' else u) (users d))
       (messages d) (follows d) (likes d).

Section Credentials.

(** The bcrypt calls of the credential store and the column defaults of
    the [User] table are declared outside [app.py]. *)
Variable generate_password_hash : string -> string.
Variable check_password_hash : string -> string -> bool.   (* digest, plaintext *)
Variable default_image_url : string.
Variable default_header_image_url : string.

(** Modelled from the spec: [User.signup] is a class method of
    [models.py].  It fails when the password is empty, otherwise hashes
    the password, builds the row with the defaults and stages it; it does
    not commit. *)
Definition User_signup (name mail pw img : string) : M User :=
  if String.eqb pw EmptyString then raise ValueError
  else
    d <- get_pending ;;
    let user := mkUser (fresh_id (map u_id (users d))) name mail
                       (generate_password_hash pw) img
                       default_header_image_url EmptyString EmptyString in
    set_pending (users_add d user) ;;
    ret user.

(** Modelled from the spec: [User.authenticate] is a class method of
    [models.py].  It looks the user up by exact username and verifies the
    password against the stored digest; both failures give [None]. *)
Definition User_authenticate (d : DB) (name pw : string) : option User :=
  match User_query_by_username d name with
  | Some u => if check_password_hash (password u) pw then Some u else None
  | None => None
  end.

(** The staged signup followed by the commit: the body of the [try]. *)
Definition signup_attempt (f : UserAddForm) : M User :=
  user <- User_signup (sf_username f) (sf_email f) (sf_password f)
            (if String.eqb (sf_image_url f) EmptyString then default_image_url
             else sf_image_url f) ;;
  commit ;;
  ret user.

Definition signup (form : option UserAddForm) : M Response :=
  do_logout ;;
  match form with
  | Some f =>
      r <- try_except
             (user <- signup_attempt f ;; ret (inl user))
             IntegrityError
             (flash "Username already taken" "danger" ;;
              ret (inr (RenderTemplate "users/signup.html"
                          [("form"%string, VForm)]))) ;;
      match r with
      | inl user => do_login user ;; ret (Redirect "/")
      | inr resp => ret resp
      end
  | None => ret (RenderTemplate "users/signup.html" [("form"%string, VForm)])
  end.

Definition login (form : option LoginForm) : M Response :=
  match form with
  | Some f =>
      d <- get_pending ;;
      match User_authenticate d (lf_username f) (lf_password f) with
      | Some user =>
          do_login user ;;
          flash ("Hello, " ++ username user ++ "!")%string "success" ;;
          ret (Redirect "/")
      | None =>
          flash "Invalid credentials." "danger" ;;
          ret (RenderTemplate "users/login.html" [("form"%string, VForm)])
      end
  | None => ret (RenderTemplate "users/login.html" [("form"%string, VForm)])
  end.

Definition profile (form : option EditUserForm) : M Response :=
  do_authorize ;;
  me <- g_user_attr ;;
  row <- User_query_get_or_404 (u_id me) ;;
  match form with
  | Some f =>
      d <- get_pending ;;
      match User_authenticate d (username me) (ef_password f) with
      | Some _ =>
          set_pending
            (users_update d
               (mkUser (u_id row) (ef_username f) (ef_email f) (password row)
                       (ef_image_url f) (ef_header_image_url f)
                       (ef_bio f) (ef_location f))) ;;
          commit ;;
          flash "Profile edited" "success" ;;
          ret (Redirect ("/users/" ++ str (u_id me))%string)
      | None =>
          flash "You are unauthorized" "danger" ;;
          ret (RenderTemplate "/users/edit.html"
                 [("form"%string, VForm); ("user_id"%string, VId (u_id me))])
      end
  | None =>
      ret (RenderTemplate "/users/edit.html"
             [("form"%string, VForm); ("user_id"%string, VId (u_id me))])
  end.

End Credentials.

(** ** Logout and the user pages *)

Definition logout : M Response :=
  do_logout ;;
  flash "You have been succesfully logged out" "danger" ;;
  ret (Redirect "/").

(** A page rendered with [user=user] in its context. *)
Inductive UserPage :=
| UserTemplate (template : string) (user : User) (context : list (string * Value)).

(** [users_show]: the profile page with the user's own messages. *)
Definition users_show (uid : Z) : M UserPage :=
  user <- User_query_get_or_404 uid ;;
  d <- get_pending ;;
  let msgs :=
    limit 100 (order_by_timestamp_desc
                 (filter (fun m => user_id m =? uid) (messages d))) in
  ret (UserTemplate "users/show.html" user [("messages"%string, VMessages msgs)]).

Definition show_following (uid : Z) : M UserPage :=
  do_authorize ;;
  user <- User_query_get_or_404 uid ;;
  ret (UserTemplate "users/following.html" user []).

Definition users_followers (uid : Z) : M UserPage :=
  do_authorize ;;
  user <- User_query_get_or_404 uid ;;
  ret (UserTemplate "users/followers.html" user []).

(** [user.likes] as message rows: the like rows of the user joined with
    [messages]. *)
Definition liked_messages (d : DB) (uid : Z) : list Message :=
  flat_map (fun mid => match Message_query_get d mid with
                       | Some m => [m]
                       | None => []
                       end)
           (user_likes d uid).

Definition show_liked_msgs (uid : Z) : M UserPage :=
  do_authorize ;;
  user <- User_query_get_or_404 uid ;;
  d <- get_pending ;;
  ret (UserTemplate "/users/likes.html" user
         [("likes"%string, VMessages (liked_messages d (u_id user)))]).

(** ** Response headers

    [add_header], the [after_request] hook, assigns four header items.
    An item assignment on the response headers replaces the first entry
    whose name is the same up to case and drops the later ones, or appends
    the entry when there is none.  The case folding of names is a
    parameter. *)

Section Headers.

Variable lower : string -> string.

Definition same_name (a b : string) : bool := String.eqb (lower a) (lower b).

Fixpoint header_set (h : list (string * string)) (k v : string)
  : list (string * string) :=
  match h with
  | [] => [(k, v)]
  | (k', v') :: r =>
      if same_name k' k
      then (k, v) :: filter (fun t => negb (same_name (fst t) k)) r
      else (k', v') :: header_set r k v
  end.

Definition header_get (h : list (string * string)) (k : string) : option string :=
  match find (fun t => same_name (fst t) k) h with
  | Some t => Some (snd t)
  | None => None
  end.

Definition add_header (h : list (string * string)) : list (string * string) :=
  let h1 := header_set h "Cache-Control" "no-cache, no-store, must-revalidate" in
  let h2 := header_set h1 "Pragma" "no-cache" in
  let h3 := header_set h2 "Expires" "0" in
  header_set h3 "Cache-Control" "public, max-age=0".

End Headers.

(** ** Sample data *)

Definition toy_hash (pw : string) : string := ("$2b$" ++ pw)%string.
Definition toy_check (digest pw : string) : bool := String.eqb digest (toy_hash pw).
Definition img0 : string := "/static/images/default-pic.png".
Definition hdr0 : string := "/static/images/warbler-hero.jpg".

Definition alice : User :=
  mkUser 1 "alice" "alice@example.com" (toy_hash "alicepw") img0 hdr0 EmptyString EmptyString.
Definition bob : User :=
  mkUser 2 "bob" "bob@example.com" (toy_hash "bobpw") img0 hdr0 EmptyString EmptyString.
Definition carol : User :=
  mkUser 3 "carol" "carol@example.com" (toy_hash "carolpw") img0 hdr0 EmptyString EmptyString.

Definition hello : Message := mkMessage 10 "hello" 200 2.
Definition M_alice : Message := mkMessage 11 "M" 100 1.

Definition db0 : DB := mkDB [alice; bob; carol] [M_alice; hello] [] [].

Definition anonymous (d : DB) : World := mkWorld d None [].
Definition signed_in (d : DB) (u : User) : World := mkWorld d (Some (u_id u)) [].

(** Case folding of ASCII header names. *)
Definition lower_char (c : Ascii.ascii) : Ascii.ascii :=
  let n := Ascii.nat_of_ascii c in
  if (Nat.leb 65 n && Nat.leb n 90)%bool then Ascii.ascii_of_nat (n + 32) else c.

Fixpoint ascii_lower (s : string) : string :=
  match s with
  | EmptyString => EmptyString
  | String c r => String (lower_char c) (ascii_lower r)
  end.

(** The world after a request, whatever its outcome. *)
Definition after {A} (h : M A) (w : World) : World := snd (handle h w).
Definition outcome {A} (h : M A) (w : World) : Result A := fst (handle h w).

(** ** Notions used in the statements *)

Definition desc (a b : Message) : Prop := timestamp b <= timestamp a.

(** The author test of the homepage query. *)
Definition in_feed (d : DB) (me : User) (m : Message) : bool :=
  in_ (following d (u_id me) ++ [u_id me]) (user_id m).

Definition timeline_of (r : Result Response) : option (list Message) :=
  match r with
  | Ok (RenderTemplate _ (("messages"%string, VMessages ms) :: _)) => Some ms
  | _ => None
  end.

(** The working copy that [like_message] commits for a message of another
    user. *)
Definition toggle_like (d : DB) (uid mid : Z) : DB :=
  if in_ (user_likes d uid) mid
  then likes_assign d uid (filter (fun l => negb (l =? mid)) (user_likes d uid))
  else likes_append d uid mid.

Definition toggle_flash (d : DB) (uid mid : Z) : string * string :=
  if in_ (user_likes d uid) mid
  then ("message unliked!", "danger")%string
  else ("message liked!", "success")%string.

Definition liked (d : DB) (e : Z * Z) : bool := existsb (edge_eqb e) (likes d).

(** The author set of the home timeline, said without the query: the
    message is written by the viewer or by a user for whom a follow row
    (viewer, author) is stored. *)
Definition by_viewer_or_followed (d : DB) (me : User) (m : Message) : bool :=
  (user_id m =? u_id me) || existsb (edge_eqb (u_id me, user_id m)) (follows d).

(** [u] is the first row of [users] whose username is [name]. *)
Definition first_with_name (d : DB) (name : string) (u : User) : Prop :=
  exists l1 l2,
    users d = l1 ++ u :: l2 /\
    username u = name /\
    forall v, In v l1 -> username v <> name.


Definition login_page : Response :=
  RenderTemplate "users/login.html" [("form"%string, VForm)].

Definition signup_page : Response :=
  RenderTemplate "users/signup.html" [("form"%string, VForm)].

(** The context in which the [try] block of [signup] starts. *)
Definition signup_ctx (w : World) : Ctx :=
  mkCtx (mkWorld (store w) None (flashes w)) (store w)
        (g_user (add_user_to_g w)).

Definition username_or_email_taken (d : DB) (f : UserAddForm) : Prop :=
  exists u, In u (users d) /\
            (username u = sf_username f \/ email u = sf_email f).

Definition edit_page (me : User) : Response :=
  RenderTemplate "/users/edit.html"
    [("form"%string, VForm); ("user_id"%string, VId (u_id me))].

(** The row that [profile] stages for the signed-in user. *)
Definition edited (me : User) (f : EditUserForm) : User :=
  mkUser (u_id me) (ef_username f) (ef_email f) (password me)
         (ef_image_url f) (ef_header_image_url f) (ef_bio f) (ef_location f).

(** * Facts about the store and the queries *)

Ltac run_handler :=
  unfold do_authorize, User_query_get_or_404, Message_query_get_or_404,
    g_user_attr, get_g_user, get_pending, set_pending, set_session, flash,
    commit, raise, abort404, bind, ret;
  cbn [pending world g_user store session flashes fst snd].

Ltac eqb_cases :=
  repeat match goal with
         | |- context [Z.eqb ?x ?y] => destruct (Z.eqb_spec x y)
         end;
  cbn [andb negb filter map fst snd List.length];
  subst; try congruence; try lia.

Lemma insert_desc_perm m l : Permutation (insert_desc m l) (m :: l).
Proof.
  induction l as [|x r IH]; simpl; [reflexivity|].
  destruct (timestamp x <=? timestamp m); [reflexivity|].
  rewrite IH. apply perm_swap.
Qed.

Lemma order_by_perm l : Permutation (order_by_timestamp_desc l) l.
Proof.
  induction l as [|x r IH]; simpl; [constructor|].
  rewrite insert_desc_perm. now constructor.
Qed.

Lemma insert_desc_sorted m l :
  StronglySorted desc l -> StronglySorted desc (insert_desc m l).
Proof.
  induction 1 as [|x r Hs IH Hx]; simpl.
  - repeat constructor.
  - destruct (timestamp x <=? timestamp m) eqn:E.
    + apply Z.leb_le in E. constructor; [now constructor|].
      constructor; [exact E|].
      eapply Forall_impl; [|exact Hx]. unfold desc. intros; lia.
    + apply Z.leb_gt in E. constructor; [exact IH|].
      eapply Permutation_Forall; [symmetry; apply insert_desc_perm|].
      constructor; [unfold desc; lia | exact Hx].
Qed.

Lemma order_by_sorted l : StronglySorted desc (order_by_timestamp_desc l).
Proof.
  induction l; simpl; [constructor | now apply insert_desc_sorted].
Qed.

Lemma in_firstn {A} n (l : list A) x : In x (firstn n l) -> In x l.
Proof.
  intros H. rewrite <- (firstn_skipn n l). apply in_or_app. now left.
Qed.

Lemma in_skipn {A} n (l : list A) x : In x (skipn n l) -> In x l.
Proof.
  intros H. rewrite <- (firstn_skipn n l). apply in_or_app. now right.
Qed.

Lemma sorted_firstn n l : StronglySorted desc l -> StronglySorted desc (firstn n l).
Proof.
  intros H. revert n. induction H as [|x r Hs IH Hx]; intros [|n]; simpl;
    try constructor; auto.
  rewrite Forall_forall in *. intros y Hy. apply Hx.
  eapply in_firstn. exact Hy.
Qed.

(** In a descending list, the rows cut off by [LIMIT] are not more recent
    than the rows kept. *)
Lemma sorted_split_le n l m m' :
  StronglySorted desc l -> In m' (firstn n l) -> In m (skipn n l) ->
  timestamp m <= timestamp m'.
Proof.
  intros H. revert n. induction H as [|x r Hs IH Hx]; intros n H1 H2.
  - rewrite firstn_nil in H1. contradiction.
  - destruct n as [|n]; simpl in *; [contradiction|].
    destruct H1 as [<-|H1].
    + rewrite Forall_forall in Hx. apply (Hx m).
      eapply in_skipn. exact H2.
    + eapply IH; eauto.
Qed.

Lemma in_following_iff d a b :
  In b (following d a) <-> is_following d a b = true.
Proof.
  unfold following, is_following, edge_eqb. rewrite in_map_iff, existsb_exists.
  split.
  - intros [[x y] [Hy Hin]]. simpl in Hy. subst y.
    apply filter_In in Hin. destruct Hin as [Hin Hx]. simpl in Hx.
    exists (x, b). split; [exact Hin|]. simpl.
    apply Z.eqb_eq in Hx. subst x. now rewrite !Z.eqb_refl.
  - intros [[x y] [Hin Hxy]]. simpl in Hxy.
    apply andb_true_iff in Hxy. destruct Hxy as [Hx Hy].
    apply Z.eqb_eq in Hx, Hy. subst x y.
    exists (a, b). split; [reflexivity|].
    apply filter_In. split; [exact Hin|]. simpl. apply Z.eqb_refl.
Qed.

Lemma in__iff ids x : in_ ids x = true <-> In x ids.
Proof.
  unfold in_. rewrite existsb_exists. split.
  - intros [y [Hy E]]. apply Z.eqb_eq in E. now subst.
  - intros H. exists x. split; [exact H | apply Z.eqb_refl].
Qed.

Lemma in_feed_iff d me m :
  in_feed d me m = true <->
  user_id m = u_id me \/ is_following d (u_id me) (user_id m) = true.
Proof.
  unfold in_feed. rewrite in__iff, in_app_iff, in_following_iff. simpl.
  intuition congruence.
Qed.

Lemma homepage_signed_in w me :
  g_user (add_user_to_g w) = Some me ->
  handle homepage w =
  (Ok (RenderTemplate "home.html"
         [("messages"%string,
           VMessages (firstn 100 (order_by_timestamp_desc
                                    (filter (in_feed (store w) me)
                                            (messages (store w))))));
          ("likes"%string, VIds (user_likes (store w) (u_id me)))]), w).
Proof.
  intros H. unfold handle, homepage, bind, get_g_user, get_pending, ret.
  rewrite H. destruct w; reflexivity.
Qed.

Lemma homepage_anonymous w :
  g_user (add_user_to_g w) = None ->
  handle homepage w = (Ok (RenderTemplate "home-anon.html" []), w).
Proof.
  intros H. unfold handle, homepage, bind, get_g_user, ret.
  rewrite H. destruct w; reflexivity.
Qed.

Lemma in_feed_by_viewer_or_followed d me m :
  in_feed d me m = by_viewer_or_followed d me m.
Proof.
  apply eq_iff_eq_true. rewrite in_feed_iff. unfold by_viewer_or_followed.
  rewrite orb_true_iff, Z.eqb_eq. reflexivity.
Qed.

(** C1: the home timeline of an authenticated viewer is the list of the
    messages written by the viewer or by a user the viewer follows, in
    descending timestamp order, cut to the 100 most recent: the rows shown
    are the first 100 of a descending arrangement of exactly the stored
    rows whose author is the viewer or has a follow row from the viewer.
    An anonymous viewer gets the anonymous page, which carries no
    timeline. *)
Theorem homepage_timeline (w : World) :
  match g_user (add_user_to_g w) with
  | Some me =>
      exists msgs sorted,
        outcome homepage w =
          Ok (RenderTemplate "home.html"
                [("messages"%string, VMessages msgs);
                 ("likes"%string, VIds (user_likes (store w) (u_id me)))]) /\
        after homepage w = w /\
        Permutation sorted
          (filter (by_viewer_or_followed (store w) me) (messages (store w))) /\
        (forall m, In m sorted <->
           In m (messages (store w)) /\
           (user_id m = u_id me \/
            is_following (store w) (u_id me) (user_id m) = true)) /\
        StronglySorted desc sorted /\
        msgs = firstn 100 sorted /\
        List.length msgs = Nat.min 100 (List.length sorted) /\
        (forall m, In m msgs ->
           In m (messages (store w)) /\
           (user_id m = u_id me \/
            is_following (store w) (u_id me) (user_id m) = true)) /\
        StronglySorted desc msgs /\
        (List.length msgs <= 100)%nat /\
        (forall m, In m (messages (store w)) ->
           (user_id m = u_id me \/
            is_following (store w) (u_id me) (user_id m) = true) ->
           In m msgs \/ forall m', In m' msgs -> timestamp m <= timestamp m')
  | None =>
      outcome homepage w = Ok (RenderTemplate "home-anon.html" []) /\
      timeline_of (outcome homepage w) = None /\
      after homepage w = w
  end.
Proof.
  destruct (g_user (add_user_to_g w)) as [me|] eqn:G.
  - set (q := filter (in_feed (store w) me) (messages (store w))).
    assert (Q : q = filter (by_viewer_or_followed (store w) me)
                           (messages (store w))).
    { apply filter_ext. intros m. apply in_feed_by_viewer_or_followed. }
    exists (firstn 100 (order_by_timestamp_desc q)), (order_by_timestamp_desc q).
    unfold outcome, after. rewrite (homepage_signed_in w me G). simpl fst; simpl snd.
    fold q.
    assert (P : Permutation (order_by_timestamp_desc q) q) by apply order_by_perm.
    assert (S : StronglySorted desc (order_by_timestamp_desc q)) by apply order_by_sorted.
    assert (I : forall m, In m (order_by_timestamp_desc q) <->
                  In m (messages (store w)) /\
                  (user_id m = u_id me \/
                   is_following (store w) (u_id me) (user_id m) = true)).
    { intros m. rewrite <- in_feed_iff. split.
      - intros H. eapply Permutation_in in H; [|exact P]. now apply filter_In in H.
      - intros H. eapply Permutation_in; [symmetry; exact P|]. now apply filter_In. }
    split; [reflexivity|]. split; [reflexivity|].
    split; [now rewrite <- Q|]. split; [exact I|]. split; [exact S|].
    split; [reflexivity|]. split; [apply length_firstn|].
    split; [|split; [|split]].
    + intros m H. apply in_firstn in H. now apply I.
    + now apply sorted_firstn.
    + apply firstn_le_length.
    + intros m Hm Ha.
      assert (J : In m (order_by_timestamp_desc q)) by (apply I; auto).
      rewrite <- (firstn_skipn 100 (order_by_timestamp_desc q)) in J.
      apply in_app_or in J. destruct J as [J|J]; [now left|right].
      intros m' Hm'. eapply sorted_split_le; eauto.
  - unfold outcome, after. rewrite (homepage_anonymous w G). simpl. auto.
Qed.

(** * Facts about requests *)

Lemma user_eqb_refl u : user_eqb u u = true.
Proof.
  unfold user_eqb. now rewrite Z.eqb_refl, !String.eqb_refl.
Qed.

Lemma edge_eqb_eq e f : edge_eqb e f = true <-> e = f.
Proof.
  destruct e as [a b], f as [c d]. unfold edge_eqb. simpl.
  rewrite andb_true_iff, !Z.eqb_eq. split; [intros [-> ->] | intros [= -> ->]]; auto.
Qed.

Lemma edge_eqb_refl e : edge_eqb e e = true.
Proof. now apply edge_eqb_eq. Qed.

Lemma edge_eqb_sym e f : edge_eqb e f = edge_eqb f e.
Proof.
  unfold edge_eqb. now rewrite (Z.eqb_sym (fst e)), (Z.eqb_sym (snd e)).
Qed.

Lemma edge_eqb_neq e f : e <> f -> edge_eqb e f = false.
Proof.
  intros H. destruct (edge_eqb e f) eqn:E; [|reflexivity].
  apply edge_eqb_eq in E. contradiction.
Qed.

Lemma filter_none {A} (f : A -> bool) l :
  (forall x, In x l -> f x = false) -> filter f l = [].
Proof.
  induction l as [|x r IH]; simpl; intros H; [reflexivity|].
  rewrite (H x (or_introl eq_refl)). apply IH. intros y Hy. apply H. now right.
Qed.

(** A commit that writes no user row cannot violate a unique constraint. *)
Lemma integrity_ok_same_users st pend :
  users pend = users st -> integrity_ok st pend = true.
Proof.
  intros E. unfold integrity_ok, dirty_users. rewrite E.
  replace (filter _ (users st)) with (@nil User); [reflexivity|].
  symmetry. apply filter_none. intros u Hu.
  apply negb_false_iff, existsb_exists.
  exists u. split; [exact Hu | apply user_eqb_refl].
Qed.

Lemma g_user_found w me :
  g_user (add_user_to_g w) = Some me ->
  User_query_get (store w) (u_id me) = Some me.
Proof.
  unfold add_user_to_g, User_query_get. simpl.
  destruct (session w) as [sid|]; [|discriminate].
  intros H. pose proof (find_some _ _ H) as [_ E].
  apply Z.eqb_eq in E. now rewrite E.
Qed.

(** The request global depends on the session key and the [users] table only. *)
Lemma g_user_stable w w' :
  session w' = session w -> users (store w') = users (store w) ->
  g_user (add_user_to_g w') = g_user (add_user_to_g w).
Proof.
  unfold add_user_to_g, User_query_get. simpl. now intros -> ->.
Qed.

Lemma count_edge_app e l1 l2 :
  count_edge e (l1 ++ l2) = (count_edge e l1 + count_edge e l2)%nat.
Proof.
  unfold count_edge. now rewrite filter_app, length_app.
Qed.

Lemma existsb_count e l :
  existsb (edge_eqb e) l = negb (Nat.eqb (count_edge e l) 0).
Proof.
  unfold count_edge. induction l as [|x r IH]; simpl; [reflexivity|].
  destruct (edge_eqb e x); simpl; auto.
Qed.

Lemma in_user_likes d uid mid :
  in_ (user_likes d uid) mid = existsb (edge_eqb (uid, mid)) (likes d).
Proof.
  unfold in_, user_likes. induction (likes d) as [|[a b] r IH]; simpl; [reflexivity|].
  unfold edge_eqb at 1. simpl. rewrite (Z.eqb_sym uid a).
  destruct (a =? uid); simpl; rewrite IH; reflexivity.
Qed.

Lemma handle_ctx {A} (h : M A) w :
  handle h w =
  (fst (h (mkCtx w (store w) (g_user (add_user_to_g w)))),
   world (snd (h (mkCtx w (store w) (g_user (add_user_to_g w)))))).
Proof.
  unfold handle, add_user_to_g. cbn [g_user].
  now destruct (h _).
Qed.

Lemma like_message_own w me msg_id msg :
  g_user (add_user_to_g w) = Some me ->
  Message_query_get (store w) msg_id = Some msg ->
  user_id msg = u_id me ->
  handle (like_message msg_id) w =
  (Ok (Redirect ("/users/" ++ str (u_id me))%string),
   mkWorld (store w) (session w)
           (flashes w ++ [("you cannot like your own messages", "danger")%string])).
Proof.
  intros G Q E. rewrite handle_ctx, G.
  unfold like_message. run_handler. rewrite Q.
  cbn [pending world g_user store session flashes fst snd].
  rewrite E, Z.eqb_refl. reflexivity.
Qed.

Lemma like_message_other w me msg_id msg :
  g_user (add_user_to_g w) = Some me ->
  Message_query_get (store w) msg_id = Some msg ->
  user_id msg <> u_id me ->
  handle (like_message msg_id) w =
  (Ok (Redirect "/"),
   mkWorld (toggle_like (store w) (u_id me) (m_id msg)) (session w)
           (flashes w ++ [toggle_flash (store w) (u_id me) (m_id msg)])).
Proof.
  intros G Q E. apply Z.eqb_neq in E. rewrite handle_ctx, G.
  unfold like_message. run_handler. rewrite Q.
  cbn [pending world g_user store session flashes fst snd].
  rewrite E. cbn [pending world g_user store session flashes fst snd].
  unfold toggle_like, toggle_flash.
  destruct (in_ (user_likes (store w) (u_id me)) (m_id msg));
    cbn [pending world g_user store session flashes fst snd];
    rewrite integrity_ok_same_users by reflexivity; reflexivity.
Qed.

Lemma count_edge_cons e x l :
  count_edge e (x :: l) =
  ((if edge_eqb e x then 1 else 0) + count_edge e l)%nat.
Proof.
  unfold count_edge. cbn [filter]. now destruct (edge_eqb e x).
Qed.

Lemma count_other_rows a b uid l :
  count_edge (a, b) (filter (fun e => negb (fst e =? uid)) l) =
  if a =? uid then 0%nat else count_edge (a, b) l.
Proof.
  induction l as [|[x y] r IH]; cbn [filter fst snd].
  - now destruct (a =? uid).
  - destruct (Z.eqb_spec x uid) as [->|N]; cbn [negb];
      rewrite ?count_edge_cons, IH; unfold edge_eqb; cbn [fst snd]; eqb_cases.
Qed.

Lemma count_kept_rows a b uid mid l :
  count_edge (a, b)
    (map (pair uid)
       (filter (fun m => negb (m =? mid))
          (map snd (filter (fun e => fst e =? uid) l)))) =
  if (a =? uid) && negb (b =? mid) then count_edge (a, b) l else 0%nat.
Proof.
  induction l as [|[x y] r IH]; cbn [filter map fst snd].
  - now destruct ((a =? uid) && negb (b =? mid)).
  - destruct (Z.eqb_spec x uid) as [->|N]; cbn [filter map fst snd].
    + destruct (Z.eqb_spec y mid) as [->|N']; cbn [negb map];
        rewrite ?count_edge_cons, IH; unfold edge_eqb; cbn [fst snd]; eqb_cases.
    + rewrite ?count_edge_cons, IH; unfold edge_eqb; cbn [fst snd]; eqb_cases.
Qed.

Lemma count_likes_assign d uid mid e :
  count_edge e
    (likes (likes_assign d uid
              (filter (fun l => negb (l =? mid)) (user_likes d uid)))) =
  if edge_eqb e (uid, mid) then 0%nat else count_edge e (likes d).
Proof.
  unfold likes_assign, user_likes. cbn [likes]. destruct e as [a b].
  rewrite count_edge_app, count_other_rows, count_kept_rows.
  unfold edge_eqb. cbn [fst snd]. eqb_cases.
Qed.

Lemma count_toggle_like d uid mid e :
  count_edge e (likes (toggle_like d uid mid)) =
  if edge_eqb e (uid, mid)
  then (if existsb (edge_eqb (uid, mid)) (likes d) then 0%nat else 1%nat)
  else count_edge e (likes d).
Proof.
  unfold toggle_like. rewrite in_user_likes.
  destruct (existsb (edge_eqb (uid, mid)) (likes d)) eqn:X.
  - apply count_likes_assign.
  - unfold likes_append. cbn [likes]. rewrite count_edge_app.
    unfold count_edge at 2. cbn [filter].
    destruct (edge_eqb e (uid, mid)) eqn:E; cbn [List.length]; [|lia].
    apply edge_eqb_eq in E. subst e.
    rewrite existsb_count in X. apply negb_false_iff, Nat.eqb_eq in X. lia.
Qed.

(** C2: a signed-in user who likes one of their own messages is turned
    away with the flashed message "you cannot like your own messages" (the
    user-visible form of the self-like error); nothing is committed, so no
    like row is created and the number of like rows of the message is the
    same as before. *)
Theorem like_own_message_rejected (w : World) (me : User) (msg_id : Z) (msg : Message) :
  g_user (add_user_to_g w) = Some me ->
  Message_query_get (store w) msg_id = Some msg ->
  user_id msg = u_id me ->
  outcome (like_message msg_id) w =
    Ok (Redirect ("/users/" ++ str (u_id me))%string) /\
  flashes (after (like_message msg_id) w) =
    flashes w ++ [("you cannot like your own messages", "danger")%string] /\
  store (after (like_message msg_id) w) = store w /\
  likes (store (after (like_message msg_id) w)) = likes (store w) /\
  (forall u, count_edge (u, m_id msg) (likes (store (after (like_message msg_id) w)))
             = count_edge (u, m_id msg) (likes (store w))).
Proof.
  intros G Q E. unfold outcome, after.
  rewrite (like_message_own w me msg_id msg G Q E). cbn [fst snd store flashes].
  repeat split.
Qed.

Lemma like_own_message_rejected_witness :
  g_user (add_user_to_g (signed_in db0 alice)) = Some alice /\
  Message_query_get (store (signed_in db0 alice)) 11 = Some M_alice /\
  user_id M_alice = u_id alice /\
  outcome (like_message 11) (signed_in db0 alice) = Ok (Redirect "/users/1") /\
  likes (store (after (like_message 11) (signed_in db0 alice))) = [].
Proof.
  destruct (like_own_message_rejected (signed_in db0 alice) alice 11 M_alice
              eq_refl eq_refl eq_refl) as (H1 & _ & _ & H4 & _).
  exact (conj eq_refl (conj eq_refl (conj eq_refl (conj H1 H4)))).
Defined.

(** C3: for a signed-in user and a message of somebody else, [like_message]
    toggles the like row: a present row is removed, an absent one is added,
    every other pair keeps its rows; two successive calls give back the
    like state of every pair, and from "not liked" the row count goes to 1
    and then to 0. *)
Theorem like_message_toggles (w : World) (me : User) (msg_id : Z) (msg : Message) :
  g_user (add_user_to_g w) = Some me ->
  Message_query_get (store w) msg_id = Some msg ->
  user_id msg <> u_id me ->
  let e := (u_id me, m_id msg) in
  let w1 := after (like_message msg_id) w in
  let w2 := after (like_message msg_id) w1 in
  outcome (like_message msg_id) w = Ok (Redirect "/") /\
  outcome (like_message msg_id) w1 = Ok (Redirect "/") /\
  liked (store w1) e = negb (liked (store w) e) /\
  count_edge e (likes (store w1)) = (if liked (store w) e then 0 else 1)%nat /\
  (forall e', e' <> e ->
     count_edge e' (likes (store w1)) = count_edge e' (likes (store w))) /\
  (forall e', liked (store w2) e' = liked (store w) e') /\
  (liked (store w) e = false ->
     count_edge e (likes (store w1)) = 1%nat /\
     count_edge e (likes (store w2)) = 0%nat).
Proof.
  intros G Q E e w1 w2.
  pose proof (like_message_other w me msg_id msg G Q E) as H1.
  assert (S1 : store w1 = toggle_like (store w) (u_id me) (m_id msg)).
  { unfold w1, after. now rewrite H1. }
  assert (U1 : users (store w1) = users (store w) /\
               messages (store w1) = messages (store w) /\
               session w1 = session w).
  { unfold w1, after. rewrite H1. cbn [snd store session].
    unfold toggle_like. now destruct (in_ _ _). }
  destruct U1 as (Uu & Um & Us).
  assert (G1 : g_user (add_user_to_g w1) = Some me).
  { rewrite <- G. now apply g_user_stable. }
  assert (Q1 : Message_query_get (store w1) msg_id = Some msg).
  { unfold Message_query_get. rewrite Um. exact Q. }
  pose proof (like_message_other w1 me msg_id msg G1 Q1 E) as H2.
  assert (S2 : store w2 = toggle_like (store w1) (u_id me) (m_id msg)).
  { unfold w2, after. now rewrite H2. }
  assert (C1 : forall e', count_edge e' (likes (store w1)) =
                 if edge_eqb e' e then (if liked (store w) e then 0 else 1)%nat
                 else count_edge e' (likes (store w))).
  { intros e'. rewrite S1. apply count_toggle_like. }
  assert (C2 : forall e', count_edge e' (likes (store w2)) =
                 if edge_eqb e' e then (if liked (store w1) e then 0 else 1)%nat
                 else count_edge e' (likes (store w1))).
  { intros e'. rewrite S2. apply count_toggle_like. }
  assert (L1 : liked (store w1) e = negb (liked (store w) e)).
  { unfold liked at 1. rewrite existsb_count, C1, edge_eqb_refl.
    now destruct (liked (store w) e). }
  unfold outcome. rewrite H1. fold w1. rewrite H2. cbn [fst].
  repeat split; auto.
  - rewrite C1, edge_eqb_refl. reflexivity.
  - intros e' N. rewrite C1, (edge_eqb_neq e' e N). reflexivity.
  - intros e'. unfold liked at 1 2. rewrite !existsb_count, C2, C1.
    destruct (edge_eqb e' e) eqn:X; [|reflexivity].
    apply edge_eqb_eq in X. subst e'. rewrite L1.
    unfold liked. rewrite existsb_count.
    now destruct (Nat.eqb (count_edge e (likes (store w))) 0).
  - rewrite C1, edge_eqb_refl, H. reflexivity.
  - rewrite C2, edge_eqb_refl, L1, H. reflexivity.
Qed.

Lemma like_message_toggles_witness :
  g_user (add_user_to_g (signed_in db0 bob)) = Some bob /\
  Message_query_get (store (signed_in db0 bob)) 11 = Some M_alice /\
  user_id M_alice <> u_id bob /\
  count_edge (2, 11) (likes (store (after (like_message 11) (signed_in db0 bob)))) = 1%nat /\
  count_edge (2, 11)
    (likes (store (after (like_message 11)
                     (after (like_message 11) (signed_in db0 bob))))) = 0%nat.
Proof.
  assert (N : user_id M_alice <> u_id bob) by (simpl; lia).
  destruct (like_message_toggles (signed_in db0 bob) bob 11 M_alice
              eq_refl eq_refl N) as (_ & _ & _ & _ & _ & _ & H).
  destruct (H eq_refl) as [H1 H2].
  exact (conj eq_refl (conj eq_refl (conj N (conj H1 H2)))).
Defined.

(** ** Follow and unfollow requests *)

Lemma User_query_get_id d id u : User_query_get d id = Some u -> u_id u = id.
Proof.
  unfold User_query_get. intros H. apply find_some in H.
  now apply Z.eqb_eq.
Qed.

Lemma add_follow_signed_in w me fid target :
  g_user (add_user_to_g w) = Some me ->
  User_query_get (store w) fid = Some target ->
  handle (add_follow fid) w =
  (Ok (Redirect ("/users/" ++ str (u_id me) ++ "/following")%string),
   mkWorld (following_append (store w) (u_id me) fid) (session w)
           (flashes w ++ [("User followed", "success")%string])).
Proof.
  intros G Q. rewrite handle_ctx, G. unfold add_follow. run_handler.
  rewrite Q. cbn [pending world g_user store session flashes fst snd].
  rewrite integrity_ok_same_users by reflexivity.
  cbn [pending world g_user store session flashes fst snd].
  now rewrite (User_query_get_id _ _ _ Q).
Qed.

Lemma stop_following_removed w me fid d' :
  g_user (add_user_to_g w) = Some me ->
  following_remove (store w) (u_id me) (User_query_get (store w) fid) = Some d' ->
  users d' = users (store w) ->
  handle (stop_following fid) w =
  (Ok (Redirect ("/users/" ++ str (u_id me) ++ "/following")%string),
   mkWorld d' (session w) (flashes w ++ [("User unfollowed", "danger")%string])).
Proof.
  intros G R U. rewrite handle_ctx, G. unfold stop_following. run_handler.
  rewrite R. cbn [pending world g_user store session flashes fst snd].
  rewrite integrity_ok_same_users by exact U. reflexivity.
Qed.

(** [list.remove] on a collection that does not hold the element. *)
Lemma stop_following_not_followed w me fid :
  g_user (add_user_to_g w) = Some me ->
  following_remove (store w) (u_id me) (User_query_get (store w) fid) = None ->
  handle (stop_following fid) w = (Stop (Raise ValueError), w).
Proof.
  intros G R. rewrite handle_ctx, G. unfold stop_following. run_handler.
  rewrite R. reflexivity.
Qed.

Lemma remove_first_none e l :
  remove_first e l = None <-> count_edge e l = 0%nat.
Proof.
  induction l as [|x r IH]; cbn [remove_first]; [now split|].
  rewrite count_edge_cons, (edge_eqb_sym e x).
  destruct (edge_eqb x e); [split; [discriminate | lia]|].
  destruct (remove_first e r); cbn [Nat.add]; rewrite <- IH; split;
    congruence.
Qed.

Lemma remove_first_count e l l' e' :
  remove_first e l = Some l' ->
  count_edge e' l = ((if edge_eqb e' e then 1 else 0) + count_edge e' l')%nat.
Proof.
  revert l'. induction l as [|x r IH]; cbn [remove_first]; [discriminate|].
  intros l'. destruct (edge_eqb x e) eqn:X.
  - intros [= <-]. apply edge_eqb_eq in X. subst x. apply count_edge_cons.
  - destruct (remove_first e r) as [r'|]; [|discriminate].
    intros [= <-]. rewrite !count_edge_cons, (IH r' eq_refl). lia.
Qed.

Lemma is_following_count d a b :
  is_following d a b = negb (Nat.eqb (count_edge (a, b) (follows d)) 0).
Proof. apply existsb_count. Qed.

(** An anonymous request passes [do_authorize] and fails at [g.user.x]. *)
Lemma add_follow_anonymous w fid target :
  g_user (add_user_to_g w) = None ->
  User_query_get (store w) fid = Some target ->
  handle (add_follow fid) w =
  (Stop (Raise AttributeError),
   mkWorld (store w) (session w)
           (flashes w ++ [("Access unauthorized.", "danger")%string])).
Proof.
  intros G Q. rewrite handle_ctx, G. unfold add_follow. run_handler.
  rewrite Q. reflexivity.
Qed.

(** C4: [stop_following] for a target the signed-in user does not follow.
    Alice follows nobody and asks to stop following Bob: the request is not
    a silent no-op, [following.remove] raises [ValueError] and nothing
    catches it.  The follow rows stay as they were. *)
Theorem stop_following_absent_raises :
  is_following db0 (u_id alice) (u_id bob) = false /\
  outcome (stop_following (u_id bob)) (signed_in db0 alice) = Stop (Raise ValueError) /\
  follows (store (after (stop_following (u_id bob)) (signed_in db0 alice))) = follows db0.
Proof.
  repeat split.
Qed.

(** C5: the five actions requested by an anonymous caller.  [do_authorize]
    flashes "Access unauthorized." but its redirect is dropped by the
    handlers, which go on to read an attribute of [g.user = None]: each
    request ends in an uncaught [AttributeError].  The tables are unchanged. *)
Theorem anonymous_actions_raise :
  let w := anonymous db0 in
  let denied := mkWorld db0 None [("Access unauthorized.", "danger")%string] in
  handle (add_follow 2) w = (Stop (Raise AttributeError), denied) /\
  handle (stop_following 2) w = (Stop (Raise AttributeError), denied) /\
  handle (like_message 10) w = (Stop (Raise AttributeError), denied) /\
  handle (messages_add (Some "hi"%string) 5) w = (Stop (Raise AttributeError), denied) /\
  handle (messages_destroy 10) w = (Stop (Raise AttributeError), denied).
Proof.
  repeat split.
Qed.




(** ** Credentials: login, signup and profile *)

Lemma fold_max_ge x l : In x l -> x <= fold_right Z.max 0 l.
Proof.
  induction l as [|y r IH]; cbn [fold_right In]; [contradiction|].
  intros [->|H]; [lia|]. specialize (IH H). lia.
Qed.

Lemma fresh_id_new d u : In u (users d) -> u_id u < fresh_id (map u_id (users d)).
Proof.
  intros H. unfold fresh_id.
  pose proof (fold_max_ge (u_id u) (map u_id (users d)) (in_map u_id _ _ H)). lia.
Qed.

Lemma user_eqb_id a b : user_eqb a b = true -> u_id a = u_id b.
Proof.
  unfold user_eqb. rewrite !andb_true_iff. intros H.
  now apply Z.eqb_eq.
Qed.

(** Staging a row whose username or email is taken makes the commit fail. *)
Lemma integrity_ok_duplicate d nu u :
  In u (users d) ->
  u_id nu = fresh_id (map u_id (users d)) ->
  username u = username nu \/ email u = email nu ->
  integrity_ok d (users_add d nu) = false.
Proof.
  intros Hu Hid Hdup. unfold integrity_ok, dirty_users, users_add. cbn [users].
  rewrite filter_app, forallb_app.
  apply andb_false_iff. right. cbn [filter].
  assert (N : existsb (user_eqb nu) (users d) = false).
  { destruct (existsb (user_eqb nu) (users d)) eqn:E; [|reflexivity].
    apply existsb_exists in E. destruct E as [v [Hv E]].
    apply user_eqb_id in E. pose proof (fresh_id_new d v Hv). lia. }
  rewrite N. cbn [negb forallb]. rewrite andb_true_r.
  apply negb_false_iff. unfold collides. apply existsb_exists.
  exists u. split; [apply in_or_app; now left|].
  apply andb_true_iff. split.
  - apply negb_true_iff, Z.eqb_neq. pose proof (fresh_id_new d u Hu). lia.
  - apply orb_true_iff.
    destruct Hdup as [E|E]; [left|right]; rewrite E; apply String.eqb_refl.
Qed.

Lemma find_first {A} (f : A -> bool) l x :
  find f l = Some x <->
  exists l1 l2, l = l1 ++ x :: l2 /\ f x = true /\
                forall v, In v l1 -> f v = false.
Proof.
  split.
  - revert x. induction l as [|y r IH]; cbn [find]; [discriminate|].
    intros x. destruct (f y) eqn:E.
    + intros [= <-]. exists [], r. repeat split; auto. intros v [].
    + intros H. destruct (IH x H) as (l1 & l2 & -> & Fx & Hl).
      exists (y :: l1), l2. repeat split; auto.
      intros v [<-|Hv]; auto.
  - intros (l1 & l2 & -> & Fx & Hl).
    induction l1 as [|y r IH]; cbn [app find].
    + now rewrite Fx.
    + rewrite (Hl y (or_introl eq_refl)). apply IH.
      intros v Hv. apply Hl. now right.
Qed.

Lemma first_with_name_find d name u :
  User_query_by_username d name = Some u <-> first_with_name d name u.
Proof.
  unfold User_query_by_username, first_with_name. rewrite find_first.
  split; intros (l1 & l2 & E & Fx & Hl); exists l1, l2; repeat split; auto.
  - now apply String.eqb_eq.
  - intros v Hv. apply String.eqb_neq. auto.
  - now apply String.eqb_eq.
  - intros v Hv. apply String.eqb_neq. auto.
Qed.

Lemma first_with_name_in d name u :
  first_with_name d name u -> In u (users d) /\ username u = name.
Proof.
  intros (l1 & l2 & E & N & _). split; [|exact N].
  rewrite E. apply in_or_app. right. now left.
Qed.

(** With distinct usernames, the first row with a name is the only one. *)
Lemma first_with_name_unique d name u :
  NoDup (map username (users d)) ->
  In u (users d) -> username u = name -> first_with_name d name u.
Proof.
  intros N Hu E. apply first_with_name_find. unfold User_query_by_username.
  subst name. induction (users d) as [|x r IH]; cbn [map find In] in *.
  - contradiction.
  - inversion N as [|? ? Nx Nr]; subst.
    destruct (String.eqb_spec (username x) (username u)) as [Ex|Ex].
    + destruct Hu as [->|Hu]; [reflexivity|].
      exfalso. apply Nx. rewrite Ex. now apply in_map.
    + destruct Hu as [->|Hu]; [congruence | now apply IH].
Qed.

Section CredentialFacts.

Variable generate_password_hash : string -> string.
Variable check_password_hash : string -> string -> bool.
Variable default_image_url : string.
Variable default_header_image_url : string.

Local Abbreviation authenticate := (User_authenticate check_password_hash).
Local Abbreviation login' := (login check_password_hash).
Local Abbreviation signup' :=
  (signup generate_password_hash default_image_url default_header_image_url).
Local Abbreviation signup_attempt' :=
  (signup_attempt generate_password_hash default_image_url
                  default_header_image_url).
Local Abbreviation profile' := (profile check_password_hash).

Lemma login_rejected w f :
  authenticate (store w) (lf_username f) (lf_password f) = None ->
  handle (login' (Some f)) w =
  (Ok login_page,
   mkWorld (store w) (session w)
           (flashes w ++ [("Invalid credentials.", "danger")%string])).
Proof.
  intros H. rewrite handle_ctx. unfold login. run_handler.
  rewrite H. reflexivity.
Qed.

Lemma login_accepted w f u :
  authenticate (store w) (lf_username f) (lf_password f) = Some u ->
  handle (login' (Some f)) w =
  (Ok (Redirect "/"),
   mkWorld (store w) (Some (u_id u))
           (flashes w ++ [(("Hello, " ++ username u ++ "!")%string,
                           "success"%string)])).
Proof.
  intros H. rewrite handle_ctx. unfold login, do_login. run_handler.
  rewrite H. reflexivity.
Qed.

(** C6: [authenticate] returns a user exactly when a stored user has the
    given username and the password verifies against that user's digest,
    and then it returns that user: the first row with the username or, the
    usernames being distinct, the only one.  It gives [None] both when no
    stored user has the username and when the password does not verify;
    the login handler answers the two failures with the same page and the
    same flashed message, and it returns a response on every input: bad
    credentials raise nothing. *)
Theorem authenticate_result (d : DB) (name pw : string) :
  (forall u, authenticate d name pw = Some u <->
             first_with_name d name u /\
             check_password_hash (password u) pw = true) /\
  (forall u, authenticate d name pw = Some u ->
             In u (users d) /\ username u = name /\
             check_password_hash (password u) pw = true) /\
  (NoDup (map username (users d)) ->
   forall u, In u (users d) -> username u = name ->
             check_password_hash (password u) pw = true ->
             authenticate d name pw = Some u) /\
  (authenticate d name pw = None <->
     (forall u, In u (users d) -> username u <> name) \/
     exists u, first_with_name d name u /\
               check_password_hash (password u) pw = false) /\
  (forall w, store w = d -> authenticate d name pw = None ->
     handle (login' (Some (mkLoginForm name pw))) w =
     (Ok login_page,
      mkWorld d (session w)
              (flashes w ++ [("Invalid credentials.", "danger")%string]))) /\
  (forall w u, store w = d -> authenticate d name pw = Some u ->
     handle (login' (Some (mkLoginForm name pw))) w =
     (Ok (Redirect "/"),
      mkWorld d (Some (u_id u))
              (flashes w ++ [(("Hello, " ++ username u ++ "!")%string,
                              "success"%string)]))) /\
  (forall w form, exists r w', handle (login' form) w = (Ok r, w')).
Proof.
  assert (A : forall u, authenticate d name pw = Some u <->
                first_with_name d name u /\
                check_password_hash (password u) pw = true).
  { intros u. rewrite <- first_with_name_find. unfold User_authenticate.
    destruct (User_query_by_username d name) as [v|].
    - destruct (check_password_hash (password v) pw) eqn:E; split.
      + intros [= <-]. auto.
      + intros [[= <-] _]. reflexivity.
      + discriminate.
      + intros [[= <-] C]. congruence.
    - split; [discriminate | intros [H _]; discriminate]. }
  split; [exact A|]. split; [|split; [|split; [|split; [|split]]]].
  - intros u H. apply A in H. destruct H as [F C].
    destruct (first_with_name_in d name u F). auto.
  - intros N u Hu E C. apply A. split; [|exact C].
    now apply first_with_name_unique.
  - unfold User_authenticate. split.
    + destruct (User_query_by_username d name) as [v|] eqn:Q.
      * destruct (check_password_hash (password v) pw) eqn:E; [discriminate|].
        intros _. right. exists v. split; [|exact E].
        now apply first_with_name_find.
      * intros _. left. intros u Hu E. unfold User_query_by_username in Q.
        apply (find_none _ _ Q) in Hu. rewrite E, String.eqb_refl in Hu.
        discriminate.
    + intros [H|[v [F C]]].
      * destruct (User_query_by_username d name) as [v|] eqn:Q; [|reflexivity].
        apply first_with_name_find, first_with_name_in in Q.
        destruct Q as [Hv E]. now destruct (H v Hv).
      * apply first_with_name_find in F. now rewrite F, C.
  - intros w <- H. now apply (login_rejected w (mkLoginForm name pw)).
  - intros w u <- H. now apply (login_accepted w (mkLoginForm name pw) u).
  - intros w [f|].
    + destruct (authenticate (store w) (lf_username f) (lf_password f)) as [u|] eqn:E.
      * rewrite (login_accepted w f u E). eauto.
      * rewrite (login_rejected w f E). eauto.
    + rewrite handle_ctx. unfold login, ret. cbn [fst snd world]. eauto.
Qed.

Lemma signup_attempt_duplicate w f :
  sf_password f <> EmptyString ->
  username_or_email_taken (store w) f ->
  exists c, signup_attempt' f (signup_ctx w) = (Stop (Raise IntegrityError), c) /\
            world c = mkWorld (store w) None (flashes w).
Proof.
  intros P [u [Hu D]]. apply String.eqb_neq in P.
  unfold signup_attempt, User_signup, signup_ctx. rewrite P. run_handler.
  erewrite integrity_ok_duplicate; [eexists; split; reflexivity | exact Hu | reflexivity | exact D].
Qed.

(** C7: a signup with a username or an email that is in use.  The commit
    raises [IntegrityError] (the duplicate-identity error), the handler
    catches it, flashes "Username already taken" and shows the form
    again; the [users] table is what it was. *)
Theorem signup_duplicate_rejected (w : World) (f : UserAddForm) :
  sf_password f <> EmptyString ->
  username_or_email_taken (store w) f ->
  fst (signup_attempt' f (signup_ctx w)) = Stop (Raise IntegrityError) /\
  outcome (signup' (Some f)) w = Ok signup_page /\
  flashes (after (signup' (Some f)) w) =
    flashes w ++ [("Username already taken", "danger")%string] /\
  store (after (signup' (Some f)) w) = store w /\
  users (store (after (signup' (Some f)) w)) = users (store w).
Proof.
  intros P D. destruct (signup_attempt_duplicate w f P D) as [c [A W]].
  assert (H : handle (signup' (Some f)) w =
              (Ok signup_page,
               mkWorld (store w) None
                 (flashes w ++ [("Username already taken", "danger")%string]))).
  { rewrite handle_ctx. unfold signup, do_logout, try_except. run_handler.
    fold (signup_ctx w). rewrite A.
    cbn [exn_eqb pending world g_user store session flashes fst snd].
    rewrite W. reflexivity. }
  unfold outcome, after. rewrite A, H. cbn [fst snd store flashes].
  repeat split.
Qed.

Lemma profile_show_form w me :
  g_user (add_user_to_g w) = Some me ->
  handle (profile' None) w = (Ok (edit_page me), w).
Proof.
  intros G. rewrite handle_ctx, G. unfold profile. run_handler.
  rewrite (g_user_found w me G). destruct w; reflexivity.
Qed.

Lemma profile_unauthorized w me f :
  g_user (add_user_to_g w) = Some me ->
  authenticate (store w) (username me) (ef_password f) = None ->
  handle (profile' (Some f)) w =
  (Ok (edit_page me),
   mkWorld (store w) (session w)
           (flashes w ++ [("You are unauthorized", "danger")%string])).
Proof.
  intros G A. rewrite handle_ctx, G. unfold profile. run_handler.
  rewrite (g_user_found w me G).
  cbn [pending world g_user store session flashes fst snd].
  rewrite A. reflexivity.
Qed.

Lemma profile_authorized w me f a :
  g_user (add_user_to_g w) = Some me ->
  authenticate (store w) (username me) (ef_password f) = Some a ->
  handle (profile' (Some f)) w =
  if integrity_ok (store w) (users_update (store w) (edited me f))
  then (Ok (Redirect ("/users/" ++ str (u_id me))%string),
        mkWorld (users_update (store w) (edited me f)) (session w)
                (flashes w ++ [("Profile edited", "success")%string]))
  else (Stop (Raise IntegrityError), w).
Proof.
  intros G A. rewrite handle_ctx, G. unfold profile. run_handler.
  rewrite (g_user_found w me G).
  cbn [pending world g_user store session flashes fst snd].
  rewrite A. cbn [pending world g_user store session flashes fst snd].
  fold (edited me f).
  destruct (integrity_ok (store w) (users_update (store w) (edited me f)));
    destruct w; reflexivity.
Qed.

Lemma profile_anonymous w form :
  g_user (add_user_to_g w) = None ->
  store (after (profile' form) w) = store w.
Proof.
  intros G. unfold after. rewrite handle_ctx, G. unfold profile. run_handler.
  reflexivity.
Qed.

(** C10: a profile update of a signed-in user.  The tables change only
    when a form was submitted and its password authenticates against the
    username of the current user; then the six profile fields of the
    user's row take the values of the form.  When the password does not
    authenticate, the row and every table stay as they were and the user
    is shown "You are unauthorized" over the edit form. *)
Theorem profile_requires_password (w : World) (me : User) (form : option EditUserForm) :
  g_user (add_user_to_g w) = Some me ->
  (store (after (profile' form) w) <> store w ->
   exists f a, form = Some f /\
               authenticate (store w) (username me) (ef_password f) = Some a) /\
  (forall f, form = Some f ->
     authenticate (store w) (username me) (ef_password f) = None ->
     outcome (profile' form) w = Ok (edit_page me) /\
     flashes (after (profile' form) w) =
       flashes w ++ [("You are unauthorized", "danger")%string] /\
     store (after (profile' form) w) = store w /\
     User_query_get (store (after (profile' form) w)) (u_id me) = Some me) /\
  (forall f a, form = Some f ->
     authenticate (store w) (username me) (ef_password f) = Some a ->
     integrity_ok (store w) (users_update (store w) (edited me f)) = true ->
     outcome (profile' form) w =
       Ok (Redirect ("/users/" ++ str (u_id me))%string) /\
     store (after (profile' form) w) = users_update (store w) (edited me f) /\
     User_query_get (store (after (profile' form) w)) (u_id me) =
       Some (edited me f)).
Proof.
  intros G. split; [|split].
  - intros N. destruct form as [f|].
    + destruct (authenticate (store w) (username me) (ef_password f)) as [a|] eqn:A.
      * now exists f, a.
      * exfalso. apply N. unfold after.
        now rewrite (profile_unauthorized w me f G A).
    + exfalso. apply N. unfold after. now rewrite (profile_show_form w me G).
  - intros f -> A. unfold outcome, after.
    rewrite (profile_unauthorized w me f G A). cbn [fst snd store flashes].
    repeat split. exact (g_user_found w me G).
  - intros f a -> A I. unfold outcome, after.
    rewrite (profile_authorized w me f a G A), I. cbn [fst snd store].
    repeat split.
    pose proof (g_user_found w me G) as Q. unfold User_query_get in *.
    unfold users_update. cbn [users].
    induction (users (store w)) as [|u r IH]; cbn [find map] in *; [discriminate|].
    change (u_id (edited me f)) with (u_id me).
    destruct (Z.eqb_spec (u_id u) (u_id me)) as [E|E].
    + cbn [u_id edited]. now rewrite Z.eqb_refl.
    + apply Z.eqb_neq in E. rewrite E. now apply IH.
Qed.

End CredentialFacts.

Lemma signup_duplicate_rejected_witness :
  let f := mkUserAddForm "alice" "secret1" "new@example.com" EmptyString in
  let w := anonymous db0 in
  outcome (signup toy_hash img0 hdr0 (Some f)) w = Ok signup_page /\
  users (store (after (signup toy_hash img0 hdr0 (Some f)) w)) = users db0.
Proof.
  intros f w.
  assert (P : sf_password f <> EmptyString) by discriminate.
  assert (D : username_or_email_taken (store w) f).
  { exists alice. split; [left; reflexivity | left; reflexivity]. }
  destruct (signup_duplicate_rejected toy_hash img0 hdr0 w f P D)
    as (_ & H2 & _ & _ & H5).
  exact (conj H2 H5).
Defined.

Lemma profile_requires_password_witness :
  let f := mkEditUserForm "al" "al@example.com" "i" "h" "b" "l" "wrong" in
  let w := signed_in db0 alice in
  outcome (profile toy_check (Some f)) w = Ok (edit_page alice) /\
  User_query_get (store (after (profile toy_check (Some f)) w)) 1 = Some alice.
Proof.
  intros f w.
  destruct (profile_requires_password toy_check w alice (Some f) eq_refl)
    as (_ & H & _).
  destruct (H f eq_refl eq_refl) as (H1 & _ & _ & H4).
  exact (conj H1 H4).
Defined.

(** The credential queries on the sample store. *)
Example authenticate_examples :
  User_authenticate toy_check db0 "alice" "alicepw" = Some alice /\
  User_authenticate toy_check db0 "alice" "bobpw" = None /\
  User_authenticate toy_check db0 "zed" "alicepw" = None.
Proof. repeat split. Qed.

(** Alice follows Bob and sees his message first; Carol follows nobody and
    has written nothing. *)
Example timeline_examples :
  timeline_of (outcome homepage (after (add_follow 2) (signed_in db0 alice)))
    = Some [hello; M_alice] /\
  timeline_of (outcome homepage (signed_in db0 carol)) = Some [] /\
  timeline_of (outcome homepage (anonymous db0)) = None.
Proof. repeat split. Qed.

(** * Further properties of the handlers *)

(** Case analysis on every test a handler makes, in program order. *)
Ltac handler_cases :=
  rewrite ?handle_ctx; run_handler;
  repeat (cbn [pending world g_user store session flashes fst snd
               users messages follows likes];
          match goal with
          | |- context [match ?x with Some _ => _ | None => _ end] =>
              destruct x eqn:?
          | |- context [if ?x then _ else _] => destruct x eqn:?
          end);
  cbn [pending world g_user store session flashes fst snd
       users messages follows likes].


Lemma toggle_like_frame d uid mid :
  users (toggle_like d uid mid) = users d /\
  messages (toggle_like d uid mid) = messages d /\
  follows (toggle_like d uid mid) = follows d.
Proof.
  unfold toggle_like. destruct (in_ (user_likes d uid) mid); auto.
Qed.


Ltac failed_unchanged h :=
  intro; unfold outcome, after; unfold h; handler_cases;
  intros; try discriminate; reflexivity.

(** X2: a request that does not return a response (404 or an uncaught
    exception) leaves the committed tables as they were: every handler
    writes through one final commit. *)
Theorem failed_request_keeps_store (w : World) (id : Z) (form : option string) (now : Z) :
  (forall s, outcome (like_message id) w = Stop s ->
             store (after (like_message id) w) = store w) /\
  (forall s, outcome (add_follow id) w = Stop s ->
             store (after (add_follow id) w) = store w) /\
  (forall s, outcome (stop_following id) w = Stop s ->
             store (after (stop_following id) w) = store w) /\
  (forall s, outcome (messages_add form now) w = Stop s ->
             store (after (messages_add form now) w) = store w) /\
  (forall s, outcome (messages_destroy id) w = Stop s ->
             store (after (messages_destroy id) w) = store w).
Proof.
  repeat apply conj.
  - failed_unchanged like_message.
  - failed_unchanged add_follow.
  - failed_unchanged stop_following.
  - destruct form; failed_unchanged messages_add.
  - failed_unchanged messages_destroy.
Qed.

Lemma failed_request_keeps_store_witness :
  outcome (stop_following 2) (signed_in db0 alice) = Stop (Raise ValueError) /\
  store (after (stop_following 2) (signed_in db0 alice)) = db0 /\
  outcome (add_follow 9) (signed_in db0 alice) = Stop Abort404 /\
  store (after (add_follow 9) (signed_in db0 alice)) = db0.
Proof.
  destruct (failed_request_keeps_store (signed_in db0 alice) 2 None 0)
    as (_ & _ & H & _).
  destruct (failed_request_keeps_store (signed_in db0 alice) 9 None 0)
    as (_ & H' & _).
  exact (conj eq_refl (conj (H _ eq_refl) (conj eq_refl (H' _ eq_refl)))).
Defined.

Lemma like_message_store w id :
  store (after (like_message id) w) = store w \/
  exists me msg,
    g_user (add_user_to_g w) = Some me /\
    Message_query_get (store w) id = Some msg /\
    user_id msg <> u_id me /\
    store (after (like_message id) w) = toggle_like (store w) (u_id me) (m_id msg).
Proof.
  destruct (g_user (add_user_to_g w)) as [me|] eqn:G;
    destruct (Message_query_get (store w) id) as [msg|] eqn:Q.
  - destruct (Z.eq_dec (user_id msg) (u_id me)) as [E|E].
    + left. unfold after. now rewrite (like_message_own w me id msg G Q E).
    + right. exists me, msg. unfold after.
      now rewrite (like_message_other w me id msg G Q E).
  - left. unfold after, like_message. rewrite handle_ctx, G. run_handler.
    now rewrite Q.
  - left. unfold after, like_message. rewrite handle_ctx, G. run_handler.
    now rewrite Q.
  - left. unfold after, like_message. rewrite handle_ctx, G. run_handler.
    now rewrite Q.
Qed.

(** X3: [like_message] keeps the [likes] table free of duplicate rows:
    if no pair has more than one row before a request, none has after it,
    whoever sends the request and whatever message it names. *)
Theorem like_message_no_duplicates (w : World) (id : Z) :
  (forall e, (count_edge e (likes (store w)) <= 1)%nat) ->
  forall e, (count_edge e (likes (store (after (like_message id) w))) <= 1)%nat.
Proof.
  intros H e. destruct (like_message_store w id) as [->|(me & msg & _ & _ & _ & ->)].
  - apply H.
  - rewrite count_toggle_like.
    destruct (edge_eqb e (u_id me, m_id msg)); [|apply H].
    destruct (existsb _ _); lia.
Qed.

Lemma like_message_no_duplicates_witness :
  (count_edge (2, 11)%Z
     (likes (store (after (like_message 11)
                      (after (like_message 11) (signed_in db0 bob))))%Z)
   <= 1)%nat.
Proof.
  apply (like_message_no_duplicates (after (like_message 11) (signed_in db0 bob)) 11).
  apply (like_message_no_duplicates (signed_in db0 bob) 11).
  intros e. apply Nat.le_0_l.
Defined.

(** X4: for a user who does not follow the target yet, following and
    then unfollowing it is a round trip on the [follows] table: the second
    request succeeds and every ordered pair has as many rows, hence the
    same [is_following], as before the first; the target is not followed
    afterwards. *)
Theorem follow_then_unfollow_restores (w : World) (me : User) (b : Z) (target : User) :
  g_user (add_user_to_g w) = Some me ->
  User_query_get (store w) b = Some target ->
  is_following (store w) (u_id me) b = false ->
  let w1 := after (add_follow b) w in
  let w2 := after (stop_following b) w1 in
  is_following (store w1) (u_id me) b = true /\
  outcome (stop_following b) w1 =
    Ok (Redirect ("/users/" ++ str (u_id me) ++ "/following")%string) /\
  (forall e, count_edge e (follows (store w2)) = count_edge e (follows (store w))) /\
  (forall x y, is_following (store w2) x y = is_following (store w) x y) /\
  is_following (store w2) (u_id me) b = false.
Proof.
  intros G Q NF w1 w2.
  assert (S1 : w1 = mkWorld (following_append (store w) (u_id me) b) (session w)
                            (flashes w ++ [("User followed", "success")%string])).
  { unfold w1, after. now rewrite (add_follow_signed_in w me b target G Q). }
  assert (G1 : g_user (add_user_to_g w1) = Some me).
  { rewrite <- G. apply g_user_stable; rewrite S1; reflexivity. }
  assert (Q1 : User_query_get (store w1) b = Some target).
  { rewrite S1. exact Q. }
  assert (F1 : forall e, count_edge e (follows (store w1)) =
                 ((if edge_eqb e (u_id me, b) then 1 else 0)
                  + count_edge e (follows (store w)))%nat).
  { intros e. rewrite S1. cbn [store following_append follows].
    rewrite count_edge_app, count_edge_cons.
    change (count_edge e []) with 0%nat.
    destruct (edge_eqb e (u_id me, b)); lia. }
  destruct (remove_first (u_id me, b) (follows (store w1))) as [fs|] eqn:R.
  2:{ apply remove_first_none in R. rewrite F1, edge_eqb_refl in R. lia. }
  assert (S2 : handle (stop_following b) w1 =
               (Ok (Redirect ("/users/" ++ str (u_id me) ++ "/following")%string),
                mkWorld (mkDB (users (store w1)) (messages (store w1)) fs
                              (likes (store w1)))
                        (session w1)
                        (flashes w1 ++ [("User unfollowed", "danger")%string]))).
  { apply stop_following_removed; [exact G1 | | reflexivity].
    unfold following_remove. now rewrite Q1, (User_query_get_id _ _ _ Q1), R. }
  assert (C : forall e, count_edge e (follows (store w2)) =
                        count_edge e (follows (store w))).
  { intros e. unfold w2, after. rewrite S2. cbn [snd store follows].
    pose proof (remove_first_count _ _ _ e R) as C. rewrite F1 in C. lia. }
  assert (I : forall x y, is_following (store w2) x y = is_following (store w) x y).
  { intros x y. now rewrite !is_following_count, C. }
  unfold outcome. rewrite S2. cbn [fst].
  split; [|split; [reflexivity|split; [exact C|split; [exact I|]]]].
  - rewrite is_following_count, F1, edge_eqb_refl. reflexivity.
  - now rewrite I.
Qed.

Lemma follow_then_unfollow_restores_witness :
  follows (store (after (stop_following 2)
                    (after (add_follow 2) (signed_in db0 alice)))) = [] /\
  is_following (store (after (stop_following 2)
                         (after (add_follow 2) (signed_in db0 alice)))) 1 2 =
  is_following db0 1 2.
Proof.
  destruct (follow_then_unfollow_restores (signed_in db0 alice) alice 2 bob
              eq_refl eq_refl eq_refl) as (_ & _ & _ & H & _).
  exact (conj eq_refl (H 1 2)).
Defined.

(** ** Posting and deleting messages *)

Lemma find_app {A} (f : A -> bool) l1 l2 :
  find f (l1 ++ l2) = match find f l1 with Some x => Some x | None => find f l2 end.
Proof.
  induction l1 as [|x r IH]; cbn [app find]; [reflexivity|].
  now destruct (f x).
Qed.

Lemma fresh_id_above ids x : In x ids -> x < fresh_id ids.
Proof.
  intros H. unfold fresh_id. pose proof (fold_max_ge x ids H). lia.
Qed.

Lemma messages_add_signed_in w me txt now :
  g_user (add_user_to_g w) = Some me ->
  handle (messages_add (Some txt) now) w =
  (Ok (Redirect ("/users/" ++ str (u_id me))%string),
   mkWorld (messages_append (store w) (u_id me) txt now) (session w) (flashes w)).
Proof.
  intros G. rewrite handle_ctx, G. unfold messages_add. run_handler.
  rewrite integrity_ok_same_users by reflexivity. destruct w; reflexivity.
Qed.

(** The row that [messages_add] stores. *)
Lemma posted_row_lookup d uid txt now :
  let m := mkMessage (fresh_id (map m_id (messages d))) txt now uid in
  Message_query_get (messages_append d uid txt now) (m_id m) = Some m /\
  (forall id m', Message_query_get d id = Some m' ->
                 Message_query_get (messages_append d uid txt now) id = Some m').
Proof.
  intros m. unfold Message_query_get, messages_append. cbn [messages].
  split.
  - rewrite find_app.
    destruct (find _ (messages d)) as [x|] eqn:E.
    + apply find_some in E. destruct E as [Hx E]. apply Z.eqb_eq in E.
      pose proof (fresh_id_above _ _ (in_map m_id _ _ Hx)) as L.
      cbn [m_id m] in E. lia.
    + cbn [find m_id m]. now rewrite Z.eqb_refl.
  - intros id m' H. now rewrite find_app, H.
Qed.

(** X5: a signed-in user who posts a message gets a new row with their
    own id as author, the submitted text and the creation time; looking
    the new key up returns that row, every earlier lookup gives what it
    gave before, and the caller is sent to their profile page. *)
Theorem messages_add_stores_row (w : World) (me : User) (txt : string) (now : Z) :
  g_user (add_user_to_g w) = Some me ->
  let m := mkMessage (fresh_id (map m_id (messages (store w)))) txt now (u_id me) in
  let w' := after (messages_add (Some txt) now) w in
  outcome (messages_add (Some txt) now) w =
    Ok (Redirect ("/users/" ++ str (u_id me))%string) /\
  messages (store w') = messages (store w) ++ [m] /\
  Message_query_get (store w') (m_id m) = Some m /\
  (forall id m', Message_query_get (store w) id = Some m' ->
                 Message_query_get (store w') id = Some m') /\
  session w' = session w.
Proof.
  intros G m w'. unfold w', outcome, after.
  rewrite (messages_add_signed_in w me txt now G). cbn [fst snd store session].
  destruct (posted_row_lookup (store w) (u_id me) txt now) as [L1 L2].
  repeat split; auto.
Qed.

Lemma messages_add_stores_row_witness :
  let w' := after (messages_add (Some "hi"%string) 300) (signed_in db0 bob) in
  Message_query_get (store w') 12 = Some (mkMessage 12 "hi" 300 2) /\
  Message_query_get (store w') 10 = Some hello.
Proof.
  destruct (messages_add_stores_row (signed_in db0 bob) bob "hi" 300 eq_refl)
    as (_ & _ & H3 & H4 & _).
  exact (conj H3 (H4 10 hello eq_refl)).
Defined.

Lemma messages_destroy_owner w me mid msg :
  g_user (add_user_to_g w) = Some me ->
  Message_query_get (store w) mid = Some msg ->
  user_id msg = u_id me ->
  handle (messages_destroy mid) w =
  (Ok (Redirect ("/users/" ++ str (u_id me))%string),
   mkWorld (delete_message (store w) msg) (session w) (flashes w)).
Proof.
  intros G Q E. rewrite handle_ctx, G. unfold messages_destroy. run_handler.
  rewrite Q. cbn [pending world g_user store session flashes fst snd].
  rewrite E, Z.eqb_refl. cbn [negb pending world g_user store session flashes fst snd].
  rewrite integrity_ok_same_users by reflexivity. destruct w; reflexivity.
Qed.

Lemma messages_destroy_not_owner w me mid msg :
  g_user (add_user_to_g w) = Some me ->
  Message_query_get (store w) mid = Some msg ->
  user_id msg <> u_id me ->
  handle (messages_destroy mid) w =
  (Ok (Redirect "/"),
   mkWorld (store w) (session w)
           (flashes w ++ [("Access unauthorized.", "danger")%string])).
Proof.
  intros G Q E. apply Z.eqb_neq in E. rewrite handle_ctx, G.
  unfold messages_destroy. run_handler.
  rewrite Q. cbn [pending world g_user store session flashes fst snd].
  rewrite E. reflexivity.
Qed.

Lemma Message_query_get_id d id m : Message_query_get d id = Some m -> m_id m = id.
Proof.
  unfold Message_query_get. intros H. apply find_some in H. now apply Z.eqb_eq.
Qed.

Lemma find_filter_other (l : list Message) mid id :
  id <> mid ->
  find (fun m => m_id m =? id) (filter (fun m => negb (m_id m =? mid)) l) =
  find (fun m => m_id m =? id) l.
Proof.
  intros N. induction l as [|x r IH]; cbn [filter find]; [reflexivity|].
  destruct (Z.eqb_spec (m_id x) mid) as [E|E]; cbn [negb find].
  - rewrite IH. destruct (Z.eqb_spec (m_id x) id); [congruence | reflexivity].
  - now rewrite IH.
Qed.

Lemma find_filter_self (l : list Message) mid :
  find (fun m => m_id m =? mid) (filter (fun m => negb (m_id m =? mid)) l) = None.
Proof.
  induction l as [|x r IH]; cbn [filter find]; [reflexivity|].
  destruct (Z.eqb_spec (m_id x) mid) as [E|E]; cbn [negb find]; [exact IH|].
  apply Z.eqb_neq in E. now rewrite E.
Qed.

(** X6: the owner of a message can delete it.  Afterwards the key names
    no message, so the same request again ends in 404; every other key
    gives the row it gave before, and the caller is sent to their profile
    page. *)
Theorem messages_destroy_by_owner (w : World) (me : User) (mid : Z) (msg : Message) :
  g_user (add_user_to_g w) = Some me ->
  Message_query_get (store w) mid = Some msg ->
  user_id msg = u_id me ->
  let w' := after (messages_destroy mid) w in
  outcome (messages_destroy mid) w =
    Ok (Redirect ("/users/" ++ str (u_id me))%string) /\
  Message_query_get (store w') mid = None /\
  (forall id, id <> mid ->
     Message_query_get (store w') id = Message_query_get (store w) id) /\
  outcome (messages_destroy mid) w' = Stop Abort404.
Proof.
  intros G Q E w'.
  assert (S : w' = mkWorld (delete_message (store w) msg) (session w) (flashes w)).
  { unfold w', after. now rewrite (messages_destroy_owner w me mid msg G Q E). }
  clearbody w'.
  pose proof (Message_query_get_id _ _ _ Q) as I.
  assert (N : Message_query_get (store w') mid = None).
  { rewrite S. unfold Message_query_get, delete_message. cbn [store messages].
    rewrite I. apply find_filter_self. }
  unfold outcome at 1. rewrite (messages_destroy_owner w me mid msg G Q E).
  cbn [fst]. repeat apply conj; auto.
  - intros id D. rewrite S. unfold Message_query_get, delete_message.
    cbn [store messages]. rewrite I. now apply find_filter_other.
  - unfold outcome, messages_destroy. rewrite handle_ctx. run_handler.
    destruct (g_user (add_user_to_g w'));
      cbn [pending world g_user store session flashes fst snd];
      rewrite N; reflexivity.
Qed.

Lemma messages_destroy_by_owner_witness :
  let w' := after (messages_destroy 10) (signed_in db0 bob) in
  Message_query_get (store w') 10 = None /\
  Message_query_get (store w') 11 = Some M_alice /\
  outcome (messages_destroy 10) w' = Stop Abort404.
Proof.
  destruct (messages_destroy_by_owner (signed_in db0 bob) bob 10 hello
              eq_refl eq_refl eq_refl) as (_ & H2 & H3 & H4).
  assert (N : 11 <> 10) by lia.
  exact (conj H2 (conj (H3 11 N) H4)).
Defined.

(** X7: a signed-in user cannot delete a message of somebody else: the
    request flashes "Access unauthorized.", redirects to the homepage and
    leaves every table as it was, so the message is still there. *)
Theorem messages_destroy_by_other (w : World) (me : User) (mid : Z) (msg : Message) :
  g_user (add_user_to_g w) = Some me ->
  Message_query_get (store w) mid = Some msg ->
  user_id msg <> u_id me ->
  outcome (messages_destroy mid) w = Ok (Redirect "/") /\
  flashes (after (messages_destroy mid) w) =
    flashes w ++ [("Access unauthorized.", "danger")%string] /\
  store (after (messages_destroy mid) w) = store w /\
  Message_query_get (store (after (messages_destroy mid) w)) mid = Some msg.
Proof.
  intros G Q E. unfold outcome, after.
  rewrite (messages_destroy_not_owner w me mid msg G Q E).
  cbn [fst snd store flashes]. auto.
Qed.

Lemma messages_destroy_by_other_witness :
  outcome (messages_destroy 10) (signed_in db0 alice) = Ok (Redirect "/") /\
  Message_query_get (store (after (messages_destroy 10) (signed_in db0 alice))) 10
  = Some hello.
Proof.
  assert (N : user_id hello <> u_id alice) by (cbn; lia).
  destruct (messages_destroy_by_other (signed_in db0 alice) alice 10 hello
              eq_refl eq_refl N) as (H1 & _ & _ & H4).
  exact (conj H1 H4).
Defined.

(** ** Unknown keys *)

Ltac aborts_404 h H :=
  unfold outcome, h; rewrite handle_ctx; run_handler;
  match goal with
  | |- context [g_user (add_user_to_g ?w)] => destruct (g_user (add_user_to_g w))
  | _ => idtac
  end;
  cbn [pending world g_user store session flashes fst snd];
  rewrite H; reflexivity.

(** X8: a key that names no row ends the request in 404 before anything
    else happens, for a signed-in and for an anonymous caller alike: a user
    key in [add_follow] and the user pages, a message key in [like_message]
    and [messages_destroy]. *)
Theorem unknown_key_aborts (w : World) (uid mid : Z) :
  User_query_get (store w) uid = None ->
  Message_query_get (store w) mid = None ->
  outcome (add_follow uid) w = Stop Abort404 /\
  outcome (users_show uid) w = Stop Abort404 /\
  outcome (show_following uid) w = Stop Abort404 /\
  outcome (users_followers uid) w = Stop Abort404 /\
  outcome (show_liked_msgs uid) w = Stop Abort404 /\
  outcome (like_message mid) w = Stop Abort404 /\
  outcome (messages_destroy mid) w = Stop Abort404.
Proof.
  intros U Q. repeat apply conj.
  - aborts_404 add_follow U.
  - aborts_404 users_show U.
  - aborts_404 show_following U.
  - aborts_404 users_followers U.
  - aborts_404 show_liked_msgs U.
  - aborts_404 like_message Q.
  - aborts_404 messages_destroy Q.
Qed.

Lemma unknown_key_aborts_witness :
  outcome (add_follow 9) (signed_in db0 alice) = Stop Abort404 /\
  outcome (messages_destroy 1234) (anonymous db0) = Stop Abort404.
Proof.
  destruct (unknown_key_aborts (signed_in db0 alice) 9 1234 eq_refl eq_refl)
    as (H & _).
  destruct (unknown_key_aborts (anonymous db0) 9 1234 eq_refl eq_refl)
    as (_ & _ & _ & _ & _ & _ & H').
  exact (conj H H').
Defined.

(** X9: [stop_following] looks its target up with [get], not
    [get_or_404]: for a signed-in caller a key that names no user does not
    give 404 but reaches [following.remove(None)], which raises
    [ValueError]; the tables are unchanged. *)
Theorem stop_following_unknown_user (w : World) (me : User) (uid : Z) :
  g_user (add_user_to_g w) = Some me ->
  User_query_get (store w) uid = None ->
  outcome (stop_following uid) w = Stop (Raise ValueError) /\
  after (stop_following uid) w = w.
Proof.
  intros G U. unfold outcome, after.
  rewrite (stop_following_not_followed w me uid G).
  - auto.
  - now rewrite U.
Qed.

Lemma stop_following_unknown_user_witness :
  outcome (stop_following 9) (signed_in db0 alice) = Stop (Raise ValueError) /\
  after (stop_following 9) (signed_in db0 alice) = signed_in db0 alice.
Proof.
  exact (stop_following_unknown_user (signed_in db0 alice) alice 9 eq_refl eq_refl).
Defined.

(** ** User pages *)

Lemma limit_most_recent (q : list Message) (m : Message) :
  In m q ->
  In m (limit 100 (order_by_timestamp_desc q)) \/
  forall m', In m' (limit 100 (order_by_timestamp_desc q)) ->
             timestamp m <= timestamp m'.
Proof.
  intros H. unfold limit.
  assert (I : In m (order_by_timestamp_desc q)).
  { eapply Permutation_in; [symmetry; apply order_by_perm | exact H]. }
  rewrite <- (firstn_skipn 100 (order_by_timestamp_desc q)) in I.
  apply in_app_or in I. destruct I as [I|I]; [now left | right].
  intros m' Hm'. eapply sorted_split_le; eauto. apply order_by_sorted.
Qed.

Lemma limit_sound (q : list Message) (m : Message) :
  In m (limit 100 (order_by_timestamp_desc q)) -> In m q.
Proof.
  intros H. apply in_firstn in H.
  eapply Permutation_in; [apply order_by_perm | exact H].
Qed.

(** X10: the profile page of an existing user, for any caller (no login
    is asked for): it lists only messages written by that user, in
    descending timestamp order, at most 100, and a message of the user that
    is left out is not more recent than the ones listed.  The request
    changes nothing. *)
Theorem users_show_timeline (w : World) (uid : Z) (u : User) :
  User_query_get (store w) uid = Some u ->
  exists msgs,
    outcome (users_show uid) w =
      Ok (UserTemplate "users/show.html" u [("messages"%string, VMessages msgs)]) /\
    after (users_show uid) w = w /\
    (forall m, In m msgs -> In m (messages (store w)) /\ user_id m = uid) /\
    StronglySorted desc msgs /\
    (List.length msgs <= 100)%nat /\
    (forall m, In m (messages (store w)) -> user_id m = uid ->
       In m msgs \/ forall m', In m' msgs -> timestamp m <= timestamp m').
Proof.
  intros U.
  set (q := filter (fun m => user_id m =? uid) (messages (store w))).
  exists (limit 100 (order_by_timestamp_desc q)).
  assert (H : handle (users_show uid) w =
              (Ok (UserTemplate "users/show.html" u
                     [("messages"%string,
                       VMessages (limit 100 (order_by_timestamp_desc q)))]), w)).
  { rewrite handle_ctx. unfold users_show. run_handler. rewrite U.
    destruct w; reflexivity. }
  unfold outcome, after. rewrite H. cbn [fst snd].
  repeat apply conj; auto.
  - intros m Hm. apply limit_sound in Hm. apply filter_In in Hm.
    destruct Hm as [Hm E]. apply Z.eqb_eq in E. auto.
  - apply sorted_firstn, order_by_sorted.
  - apply firstn_le_length.
  - intros m Hm E. apply limit_most_recent. apply filter_In.
    split; [exact Hm | now apply Z.eqb_eq].
Qed.

Lemma users_show_timeline_witness :
  exists msgs,
    outcome (users_show 2) (anonymous db0) =
      Ok (UserTemplate "users/show.html" bob [("messages"%string, VMessages msgs)]) /\
    (forall m, In m msgs -> user_id m = 2).
Proof.
  destruct (users_show_timeline (anonymous db0) 2 bob eq_refl)
    as (msgs & H1 & _ & H3 & _).
  exists msgs. split; [exact H1 | intros m Hm; apply (H3 m Hm)].
Defined.

(** X11: the pages behind [do_authorize] are served to an anonymous
    caller all the same: for an existing user the following, followers and
    likes pages are rendered, with "Access unauthorized." flashed, instead
    of the redirect that [do_authorize] builds. *)
Theorem user_pages_served_to_anonymous (w : World) (uid : Z) (u : User) :
  g_user (add_user_to_g w) = None ->
  User_query_get (store w) uid = Some u ->
  let denied := mkWorld (store w) (session w)
                  (flashes w ++ [("Access unauthorized.", "danger")%string]) in
  handle (show_following uid) w =
    (Ok (UserTemplate "users/following.html" u []), denied) /\
  handle (users_followers uid) w =
    (Ok (UserTemplate "users/followers.html" u []), denied) /\
  handle (show_liked_msgs uid) w =
    (Ok (UserTemplate "/users/likes.html" u
           [("likes"%string, VMessages (liked_messages (store w) (u_id u)))]),
     denied).
Proof.
  intros G U denied. repeat apply conj.
  - rewrite handle_ctx, G. unfold show_following. run_handler. now rewrite U.
  - rewrite handle_ctx, G. unfold users_followers. run_handler. now rewrite U.
  - rewrite handle_ctx, G. unfold show_liked_msgs. run_handler. now rewrite U.
Qed.

Lemma user_pages_served_to_anonymous_witness :
  outcome (users_followers 1) (anonymous db0) =
    Ok (UserTemplate "users/followers.html" alice []).
Proof.
  destruct (user_pages_served_to_anonymous (anonymous db0) 1 alice eq_refl eq_refl)
    as (_ & H & _).
  exact (f_equal fst H).
Defined.

Lemma in_liked_messages d uid m :
  In m (liked_messages d uid) <->
  liked d (uid, m_id m) = true /\ Message_query_get d (m_id m) = Some m.
Proof.
  unfold liked_messages, liked. rewrite in_flat_map, <- in_user_likes, in__iff.
  split.
  - intros [mid [Hmid Hm]].
    destruct (Message_query_get d mid) as [m'|] eqn:Q; [|contradiction].
    destruct Hm as [<-|[]]. pose proof (Message_query_get_id _ _ _ Q) as I.
    rewrite I. auto.
  - intros [L Q]. exists (m_id m). split; [exact L|]. rewrite Q. now left.
Qed.

(** X12: the likes page of an existing user lists exactly the stored
    messages for which the user has a like row. *)
Theorem show_liked_msgs_lists (w : World) (uid : Z) (u : User) :
  User_query_get (store w) uid = Some u ->
  exists ms,
    outcome (show_liked_msgs uid) w =
      Ok (UserTemplate "/users/likes.html" u [("likes"%string, VMessages ms)]) /\
    store (after (show_liked_msgs uid) w) = store w /\
    (forall m, In m ms <->
               liked (store w) (uid, m_id m) = true /\
               Message_query_get (store w) (m_id m) = Some m).
Proof.
  intros U. exists (liked_messages (store w) uid).
  pose proof (User_query_get_id _ _ _ U) as I.
  split; [|split].
  - unfold outcome. rewrite handle_ctx. unfold show_liked_msgs. run_handler.
    destruct (g_user (add_user_to_g w));
      cbn [pending world g_user store session flashes fst snd];
      rewrite U, I; reflexivity.
  - unfold after. rewrite handle_ctx. unfold show_liked_msgs. run_handler.
    destruct (g_user (add_user_to_g w));
      cbn [pending world g_user store session flashes fst snd];
      rewrite U; reflexivity.
  - intros m. apply in_liked_messages.
Qed.

Lemma show_liked_msgs_lists_witness :
  exists ms,
    outcome (show_liked_msgs 2) (after (like_message 11) (signed_in db0 bob)) =
      Ok (UserTemplate "/users/likes.html" bob [("likes"%string, VMessages ms)]) /\
    In M_alice ms.
Proof.
  destruct (show_liked_msgs_lists (after (like_message 11) (signed_in db0 bob))
              2 bob eq_refl) as (ms & H1 & _ & H3).
  exists ms. split; [exact H1|]. apply H3. split; reflexivity.
Defined.

(** ** How requests compose *)

Lemma in_user_likes_liked d uid mid :
  In mid (user_likes d uid) <-> liked d (uid, mid) = true.
Proof.
  unfold liked. now rewrite <- in_user_likes, in__iff.
Qed.

Lemma liked_toggle d uid mid :
  liked (toggle_like d uid mid) (uid, mid) = negb (liked d (uid, mid)).
Proof.
  unfold liked at 1. rewrite existsb_count, count_toggle_like, edge_eqb_refl.
  fold (liked d (uid, mid)). now destruct (liked d (uid, mid)).
Qed.

(** X13: liking shows on the homepage.  After a signed-in user's
    [like_message] on a message of somebody else, the [likes] list that the
    homepage renders holds the message key exactly when the message was not
    liked before; the list of messages shown is the same as before. *)
Theorem like_shows_on_homepage (w : World) (me : User) (msg_id : Z) (msg : Message) :
  g_user (add_user_to_g w) = Some me ->
  Message_query_get (store w) msg_id = Some msg ->
  user_id msg <> u_id me ->
  let w1 := after (like_message msg_id) w in
  exists msgs ids,
    outcome homepage w = Ok (RenderTemplate "home.html"
      [("messages"%string, VMessages msgs);
       ("likes"%string, VIds (user_likes (store w) (u_id me)))]) /\
    outcome homepage w1 = Ok (RenderTemplate "home.html"
      [("messages"%string, VMessages msgs); ("likes"%string, VIds ids)]) /\
    (In (m_id msg) ids <-> ~ In (m_id msg) (user_likes (store w) (u_id me))).
Proof.
  intros G Q E w1.
  pose proof (like_message_other w me msg_id msg G Q E) as H.
  assert (S1 : store w1 = toggle_like (store w) (u_id me) (m_id msg)).
  { unfold w1, after. now rewrite H. }
  assert (Ss : session w1 = session w).
  { unfold w1, after. now rewrite H. }
  destruct (toggle_like_frame (store w) (u_id me) (m_id msg)) as (Tu & Tm & Tf).
  assert (G1 : g_user (add_user_to_g w1) = Some me).
  { rewrite <- G. apply g_user_stable; [exact Ss | now rewrite S1]. }
  exists (firstn 100 (order_by_timestamp_desc
                        (filter (in_feed (store w) me) (messages (store w))))),
         (user_likes (store w1) (u_id me)).
  unfold outcome. rewrite (homepage_signed_in w me G), (homepage_signed_in w1 me G1).
  cbn [fst]. split; [|split].
  - reflexivity.
  - unfold in_feed, following. rewrite S1, Tm, Tf. reflexivity.
  - rewrite !in_user_likes_liked, S1, liked_toggle.
    destruct (liked (store w) (u_id me, m_id msg)); cbn [negb]; split.
    + discriminate.
    + intros N. now destruct N.
    + intros _ N. discriminate N.
    + reflexivity.
Qed.

Lemma like_shows_on_homepage_witness :
  exists msgs ids,
    outcome homepage (after (like_message 11) (signed_in db0 bob)) =
      Ok (RenderTemplate "home.html"
            [("messages"%string, VMessages msgs); ("likes"%string, VIds ids)]) /\
    In 11 ids.
Proof.
  assert (N : user_id M_alice <> u_id bob) by (cbn; lia).
  destruct (like_shows_on_homepage (signed_in db0 bob) bob 11 M_alice
              eq_refl eq_refl N) as (msgs & ids & _ & H2 & H3).
  exists msgs, ids. split; [exact H2|]. apply H3. intros [].
Defined.

Lemma add_follow_world w me b target :
  g_user (add_user_to_g w) = Some me ->
  User_query_get (store w) b = Some target ->
  after (add_follow b) w =
    mkWorld (following_append (store w) (u_id me) b) (session w)
            (flashes w ++ [("User followed", "success")%string]) /\
  g_user (add_user_to_g (after (add_follow b) w)) = Some me.
Proof.
  intros G Q.
  assert (S : after (add_follow b) w =
              mkWorld (following_append (store w) (u_id me) b) (session w)
                      (flashes w ++ [("User followed", "success")%string])).
  { unfold after. now rewrite (add_follow_signed_in w me b target G Q). }
  split; [exact S|]. rewrite <- G. apply g_user_stable; rewrite S; reflexivity.
Qed.

(** X14: following brings the messages of the followed user into the home
    timeline.  After a signed-in user's [add_follow] of an existing user,
    every stored message of that user is on the homepage, unless 100 at
    least as recent messages fill it; the messages that qualified before
    still qualify. *)
Theorem follow_adds_to_timeline (w : World) (me : User) (b : Z) (target : User) :
  g_user (add_user_to_g w) = Some me ->
  User_query_get (store w) b = Some target ->
  let w1 := after (add_follow b) w in
  exists msgs,
    timeline_of (outcome homepage w1) = Some msgs /\
    (forall m, In m (messages (store w)) -> user_id m = b ->
       In m msgs \/ forall m', In m' msgs -> timestamp m <= timestamp m') /\
    (forall m, in_feed (store w) me m = true -> in_feed (store w1) me m = true).
Proof.
  intros G Q w1. destruct (add_follow_world w me b target G Q) as [S G1].
  fold w1 in S, G1.
  exists (limit 100 (order_by_timestamp_desc
                       (filter (in_feed (store w1) me) (messages (store w1))))).
  assert (F : forall x, is_following (store w1) (u_id me) x = true <->
                        x = b \/ is_following (store w) (u_id me) x = true).
  { intros x. rewrite S. unfold is_following. cbn [store following_append follows].
    rewrite existsb_app. cbn [existsb]. rewrite orb_false_r, orb_true_iff.
    unfold edge_eqb at 2. cbn [fst snd]. rewrite Z.eqb_refl, andb_true_l, Z.eqb_eq.
    intuition congruence. }
  split; [|split].
  - unfold outcome. rewrite (homepage_signed_in w1 me G1). reflexivity.
  - intros m Hm E. apply limit_most_recent. apply filter_In. split.
    + rewrite S. exact Hm.
    + apply in_feed_iff. right. apply F. left. congruence.
  - intros m. rewrite !in_feed_iff, F. tauto.
Qed.

Lemma follow_adds_to_timeline_witness :
  exists msgs,
    timeline_of (outcome homepage (after (add_follow 2) (signed_in db0 alice)))
      = Some msgs /\
    (In hello msgs \/ forall m', In m' msgs -> timestamp hello <= timestamp m').
Proof.
  destruct (follow_adds_to_timeline (signed_in db0 alice) alice 2 bob
              eq_refl eq_refl) as (msgs & H1 & H2 & _).
  exists msgs. split; [exact H1|].
  apply (H2 hello); [right; left; reflexivity | reflexivity].
Defined.

Lemma order_by_head_latest (q : list Message) (m : Message) :
  In m q ->
  (forall x, In x q -> x = m \/ timestamp x < timestamp m) ->
  exists rest, order_by_timestamp_desc q = m :: rest.
Proof.
  intros Hm Hq.
  pose proof (order_by_perm q) as P. pose proof (order_by_sorted q) as S.
  destruct (order_by_timestamp_desc q) as [|h t].
  - apply Permutation_nil in P. subst q. contradiction.
  - assert (Hh : In h q) by (eapply Permutation_in; [exact P | now left]).
    assert (Hm' : In m (h :: t)).
    { eapply Permutation_in; [symmetry; exact P | exact Hm]. }
    destruct Hm' as [->|Ht]; [now exists t|].
    inversion S as [|? ? _ Hall]; subst.
    rewrite Forall_forall in Hall. specialize (Hall m Ht). unfold desc in Hall.
    destruct (Hq h Hh) as [->|L]; [now exists t | lia].
Qed.

(** X15: a message posted at a time later than every stored timestamp is
    the first entry of the author's home timeline and of the author's
    profile page on the next request. *)
Theorem posted_message_on_top (w : World) (me : User) (txt : string) (now : Z) :
  g_user (add_user_to_g w) = Some me ->
  (forall m', In m' (messages (store w)) -> timestamp m' < now) ->
  let m := mkMessage (fresh_id (map m_id (messages (store w)))) txt now (u_id me) in
  let w' := after (messages_add (Some txt) now) w in
  (exists rest, timeline_of (outcome homepage w') = Some (m :: rest)) /\
  (exists rest, outcome (users_show (u_id me)) w' =
     Ok (UserTemplate "users/show.html" me
           [("messages"%string, VMessages (m :: rest))])).
Proof.
  intros G L m w'.
  assert (S : w' = mkWorld (messages_append (store w) (u_id me) txt now)
                           (session w) (flashes w)).
  { unfold w', after. now rewrite (messages_add_signed_in w me txt now G). }
  assert (G1 : g_user (add_user_to_g w') = Some me).
  { rewrite <- G. apply g_user_stable; rewrite S; reflexivity. }
  assert (Ms : messages (store w') = messages (store w) ++ [m]).
  { rewrite S. reflexivity. }
  clearbody w'.
  assert (top : forall f, f m = true ->
            exists rest, limit 100 (order_by_timestamp_desc
                                      (filter f (messages (store w')))) = m :: rest).
  { intros f Hf.
    destruct (order_by_head_latest (filter f (messages (store w'))) m) as [rest R].
    - apply filter_In. split; [|exact Hf]. rewrite Ms. apply in_or_app.
      right. now left.
    - intros x Hx. apply filter_In in Hx. destruct Hx as [Hx _].
      rewrite Ms in Hx. apply in_app_or in Hx. destruct Hx as [Hx|[<-|[]]].
      + right. apply (L x Hx).
      + now left.
    - rewrite R. now exists (firstn 99 rest). }
  split.
  - destruct (top (in_feed (store w') me)) as [rest R].
    { apply in_feed_iff. now left. }
    exists rest. unfold outcome. rewrite (homepage_signed_in w' me G1).
    cbn [fst timeline_of]. unfold limit in R. now rewrite R.
  - destruct (top (fun x => user_id x =? u_id me)) as [rest R].
    { apply Z.eqb_refl. }
    exists rest. unfold outcome. rewrite handle_ctx. unfold users_show.
    run_handler. rewrite (g_user_found w' me G1).
    cbn [pending world g_user store session flashes fst snd].
    now rewrite R.
Qed.

Lemma posted_message_on_top_witness :
  exists rest,
    timeline_of (outcome homepage
                   (after (messages_add (Some "hi"%string) 300)
                          (signed_in db0 bob)))
    = Some (mkMessage 12 "hi" 300 2 :: rest).
Proof.
  assert (L : forall m', In m' (messages (store (signed_in db0 bob))) ->
                         timestamp m' < 300).
  { intros m' [<-|[<-|[]]]; cbn; lia. }
  destruct (posted_message_on_top (signed_in db0 bob) bob "hi" 300 eq_refl L)
    as [H _].
  exact H.
Defined.

(** ** Sessions and accounts *)

Lemma User_query_get_unique d u :
  NoDup (map u_id (users d)) -> In u (users d) ->
  User_query_get d (u_id u) = Some u.
Proof.
  unfold User_query_get. induction (users d) as [|x r IH]; cbn [map find In].
  - contradiction.
  - intros N H. inversion N as [|? ? Nx Nr]; subst.
    destruct (Z.eqb_spec (u_id x) (u_id u)) as [E|E].
    + destruct H as [->|H]; [reflexivity|].
      exfalso. apply Nx. rewrite E. now apply in_map.
    + destruct H as [->|H]; [congruence | now apply IH].
Qed.

Lemma logout_world w :
  handle logout w =
  (Ok (Redirect "/"),
   mkWorld (store w) None
           (flashes w ++ [("You have been succesfully logged out", "danger")%string])).
Proof.
  rewrite handle_ctx. unfold logout, do_logout. run_handler. reflexivity.
Qed.

Lemma integrity_ok_fresh d nu :
  u_id nu = fresh_id (map u_id (users d)) ->
  (forall u, In u (users d) -> username u <> username nu /\ email u <> email nu) ->
  integrity_ok d (users_add d nu) = true.
Proof.
  intros Hid Hnew. unfold integrity_ok. apply forallb_forall. intros x Hx.
  unfold dirty_users in Hx. apply filter_In in Hx. destruct Hx as [Hx Hd].
  unfold users_add in Hx. cbn [users] in Hx. apply in_app_or in Hx.
  assert (x = nu) as ->.
  { destruct Hx as [Hx|[<-|[]]]; [|reflexivity].
    apply negb_true_iff in Hd.
    assert (existsb (user_eqb x) (users d) = true); [|congruence].
    apply existsb_exists. exists x. split; [exact Hx | apply user_eqb_refl]. }
  apply negb_true_iff. unfold collides, users_add. cbn [users].
  destruct (existsb _ (users d ++ [nu])) eqn:E; [|reflexivity].
  apply existsb_exists in E. destruct E as [v [Hv E]].
  apply andb_true_iff in E. destruct E as [E1 E2].
  apply in_app_or in Hv. destruct Hv as [Hv|[<-|[]]].
  - destruct (Hnew v Hv) as [Nu Ne]. apply orb_true_iff in E2.
    destruct E2 as [E2|E2]; apply String.eqb_eq in E2; contradiction.
  - rewrite Z.eqb_refl in E1. discriminate.
Qed.

Section SessionFacts.

Variable generate_password_hash : string -> string.
Variable check_password_hash : string -> string -> bool.
Variable default_image_url : string.
Variable default_header_image_url : string.

Lemma authenticate_in d name pw u :
  User_authenticate check_password_hash d name pw = Some u -> In u (users d).
Proof.
  unfold User_authenticate, User_query_by_username.
  destruct (find _ (users d)) as [v|] eqn:E; [|discriminate].
  destruct (check_password_hash (password v) pw); [|discriminate].
  intros [= <-]. now apply find_some in E.
Qed.

(** X16: a successful login binds the session to the authenticated user:
    on the next request [g.user] is that user (the user keys being
    distinct) and the homepage is the signed-in one; a logout after it
    unbinds the session, so the following request is anonymous.  Neither
    request changes a table. *)
Theorem login_then_logout (w : World) (f : LoginForm) (u : User) :
  NoDup (map u_id (users (store w))) ->
  User_authenticate check_password_hash (store w) (lf_username f) (lf_password f)
    = Some u ->
  let w1 := after (login check_password_hash (Some f)) w in
  let w2 := after logout w1 in
  g_user (add_user_to_g w1) = Some u /\
  (exists msgs, timeline_of (outcome homepage w1) = Some msgs) /\
  g_user (add_user_to_g w2) = None /\
  outcome homepage w2 = Ok (RenderTemplate "home-anon.html" []) /\
  store w1 = store w /\ store w2 = store w.
Proof.
  intros N A w1 w2.
  assert (S1 : w1 = mkWorld (store w) (Some (u_id u))
                      (flashes w ++ [(("Hello, " ++ username u ++ "!")%string,
                                      "success"%string)])).
  { unfold w1, after. now rewrite (login_accepted check_password_hash w f u A). }
  assert (S2 : w2 = mkWorld (store w1) None
                      (flashes w1 ++ [("You have been succesfully logged out",
                                       "danger")%string])).
  { unfold w2, after. now rewrite logout_world. }
  clearbody w1 w2.
  assert (G1 : g_user (add_user_to_g w1) = Some u).
  { rewrite S1. unfold add_user_to_g. cbn [g_user session store].
    apply User_query_get_unique; [exact N | exact (authenticate_in _ _ _ _ A)]. }
  assert (G2 : g_user (add_user_to_g w2) = None).
  { rewrite S2. reflexivity. }
  repeat apply conj.
  - exact G1.
  - eexists. unfold outcome. rewrite (homepage_signed_in w1 u G1). reflexivity.
  - exact G2.
  - unfold outcome. now rewrite (homepage_anonymous w2 G2).
  - now rewrite S1.
  - now rewrite S2, S1.
Qed.

(** X17: a signup with a non-empty password and a username and email that
    no stored user has creates the account: one row is appended with a
    fresh key, the hashed password and the form's values, the session is
    bound to the new user, who is [g.user] on the next request, and, the
    hash verifying against its own password, [authenticate] with the
    submitted credentials returns the new user. *)
Theorem signup_creates_account (w : World) (f : UserAddForm) :
  sf_password f <> EmptyString ->
  (forall u, In u (users (store w)) ->
             username u <> sf_username f /\ email u <> sf_email f) ->
  check_password_hash (generate_password_hash (sf_password f)) (sf_password f)
    = true ->
  let nu := mkUser (fresh_id (map u_id (users (store w))))
              (sf_username f) (sf_email f)
              (generate_password_hash (sf_password f))
              (if String.eqb (sf_image_url f) EmptyString then default_image_url
               else sf_image_url f)
              default_header_image_url EmptyString EmptyString in
  let h := signup generate_password_hash default_image_url
                  default_header_image_url (Some f) in
  outcome h w = Ok (Redirect "/") /\
  users (store (after h w)) = users (store w) ++ [nu] /\
  session (after h w) = Some (u_id nu) /\
  g_user (add_user_to_g (after h w)) = Some nu /\
  User_authenticate check_password_hash (store (after h w))
    (sf_username f) (sf_password f) = Some nu.
Proof.
  intros P New V nu h. apply String.eqb_neq in P.
  assert (S : handle h w =
              (Ok (Redirect "/"),
               mkWorld (users_add (store w) nu) (Some (u_id nu)) (flashes w))).
  { unfold h. rewrite handle_ctx.
    unfold signup, signup_attempt, User_signup, do_logout, do_login, try_except.
    rewrite P. run_handler. fold nu.
    rewrite (integrity_ok_fresh (store w) nu eq_refl New). reflexivity. }
  unfold outcome, after. rewrite S. cbn [fst snd store session users_add users].
  assert (Q : User_query_get (users_add (store w) nu) (u_id nu) = Some nu).
  { unfold User_query_get, users_add. cbn [users]. rewrite find_app.
    destruct (find _ (users (store w))) as [x|] eqn:E.
    - apply find_some in E. destruct E as [Hx E]. apply Z.eqb_eq in E.
      pose proof (fresh_id_new (store w) x Hx). cbn [u_id nu] in E. lia.
    - cbn [find]. now rewrite Z.eqb_refl. }
  repeat apply conj; auto.
  unfold User_authenticate, User_query_by_username, users_add. cbn [users].
  rewrite find_app.
  destruct (find _ (users (store w))) as [x|] eqn:E.
  - apply find_some in E. destruct E as [Hx E]. apply String.eqb_eq in E.
    now destruct (New x Hx).
  - subst nu. cbn [find username]. rewrite String.eqb_refl. cbn [password].
    now rewrite V.
Qed.

End SessionFacts.

Lemma login_then_logout_witness :
  let w1 := after (login toy_check (Some (mkLoginForm "alice" "alicepw")))
                  (anonymous db0) in
  g_user (add_user_to_g w1) = Some alice /\
  g_user (add_user_to_g (after logout w1)) = None.
Proof.
  assert (N : NoDup (map u_id (users (store (anonymous db0))))).
  { cbn. repeat constructor; cbn; intuition lia. }
  destruct (login_then_logout toy_check (anonymous db0)
              (mkLoginForm "alice" "alicepw") alice N eq_refl)
    as (H1 & _ & H3 & _).
  exact (conj H1 H3).
Defined.

Lemma signup_creates_account_witness :
  let f := mkUserAddForm "dave" "secret1" "dave@example.com" EmptyString in
  let w' := after (signup toy_hash img0 hdr0 (Some f)) (anonymous db0) in
  session w' = Some 4 /\
  User_authenticate toy_check (store w') "dave" "secret1" =
    Some (mkUser 4 "dave" "dave@example.com" (toy_hash "secret1") img0 hdr0
                 EmptyString EmptyString).
Proof.
  intros f w'.
  assert (P : sf_password f <> EmptyString) by discriminate.
  assert (New : forall u, In u (users (store (anonymous db0))) ->
                  username u <> sf_username f /\ email u <> sf_email f).
  { intros u [<-|[<-|[<-|[]]]]; split; discriminate. }
  destruct (signup_creates_account toy_hash toy_check img0 hdr0
              (anonymous db0) f P New eq_refl) as (_ & _ & H3 & _ & H5).
  exact (conj H3 H5).
Defined.

(** ** Response headers *)

Section HeaderFacts.

Variable lower : string -> string.

Lemma same_name_refl a : same_name lower a a = true.
Proof. apply String.eqb_refl. Qed.

Lemma same_name_sym a b : same_name lower a b = same_name lower b a.
Proof. apply String.eqb_sym. Qed.

Lemma same_name_trans a b c :
  same_name lower a b = true -> same_name lower b c = same_name lower a c.
Proof.
  unfold same_name. intros H. apply String.eqb_eq in H. now rewrite H.
Qed.

Lemma header_get_cons a u r k' :
  header_get lower ((a, u) :: r) k' =
  if same_name lower a k' then Some u else header_get lower r k'.
Proof.
  unfold header_get. cbn [find fst snd]. now destruct (same_name lower a k').
Qed.

Ltac name_cases :=
  unfold same_name in *;
  repeat match goal with
         | |- context [String.eqb ?x ?y] => destruct (String.eqb_spec x y)
         | H : context [String.eqb ?x ?y] |- _ => destruct (String.eqb_spec x y)
         end;
  try congruence.

Lemma header_get_filter h k k' :
  same_name lower k k' = false ->
  header_get lower (filter (fun t => negb (same_name lower (fst t) k)) h) k' =
  header_get lower h k'.
Proof.
  intros N. induction h as [|[a v] r IH]; cbn [filter fst]; [reflexivity|].
  destruct (same_name lower a k) eqn:E; cbn [negb];
    rewrite ?header_get_cons, IH; name_cases.
Qed.

Lemma header_get_set h k v k' :
  header_get lower (header_set lower h k v) k' =
  if same_name lower k k' then Some v else header_get lower h k'.
Proof.
  induction h as [|[a u] r IH]; cbn [header_set].
  - rewrite header_get_cons. reflexivity.
  - destruct (same_name lower a k) eqn:E; rewrite !header_get_cons.
    + destruct (same_name lower k k') eqn:K; [reflexivity|].
      rewrite (header_get_filter r k k' K). name_cases.
    + rewrite IH. name_cases.
Qed.

(** X18: the headers that [add_header] leaves on a response.  Whatever
    the response carried, [Cache-Control] is "public, max-age=0" (the
    first value, with no-store, is overwritten by the last assignment),
    [Pragma] is "no-cache", [Expires] is "0", and every header with another
    name reads as before. *)
Theorem add_header_result (h : list (string * string)) :
  same_name lower "Cache-Control" "Pragma" = false ->
  same_name lower "Cache-Control" "Expires" = false ->
  same_name lower "Pragma" "Expires" = false ->
  header_get lower (add_header lower h) "Cache-Control" = Some "public, max-age=0"%string /\
  header_get lower (add_header lower h) "Pragma" = Some "no-cache"%string /\
  header_get lower (add_header lower h) "Expires" = Some "0"%string /\
  (forall k, same_name lower "Cache-Control" k = false ->
             same_name lower "Pragma" k = false ->
             same_name lower "Expires" k = false ->
             header_get lower (add_header lower h) k = header_get lower h k).
Proof.
  intros CP CE PE. unfold add_header. repeat apply conj.
  - now rewrite header_get_set, same_name_refl.
  - rewrite !header_get_set, CP, (same_name_sym "Expires"), PE, same_name_refl.
    reflexivity.
  - rewrite !header_get_set, CE, same_name_refl. reflexivity.
  - intros k C P E. now rewrite !header_get_set, C, P, E.
Qed.

End HeaderFacts.

Lemma add_header_result_witness :
  let h := [("Content-Type", "text/html"); ("cache-control", "private")]%string in
  header_get ascii_lower (add_header ascii_lower h) "Cache-Control"
    = Some "public, max-age=0"%string /\
  header_get ascii_lower (add_header ascii_lower h) "Content-Type"
    = Some "text/html"%string.
Proof.
  intros h.
  destruct (add_header_result ascii_lower h eq_refl eq_refl eq_refl)
    as (H1 & _ & _ & H4).
  exact (conj H1 (H4 "Content-Type"%string eq_refl eq_refl eq_refl)).
Defined.

(** ** More on follows, signup and profile *)

(** X19: following oneself changes nothing on the homepage: the author
    test of the home timeline already lets the viewer's own messages in,
    so the timeline after a self-follow is the timeline before it. *)
Theorem self_follow_keeps_timeline (w : World) (me : User) :
  g_user (add_user_to_g w) = Some me ->
  outcome (add_follow (u_id me)) w =
    Ok (Redirect ("/users/" ++ str (u_id me) ++ "/following")%string) /\
  is_following (store (after (add_follow (u_id me)) w)) (u_id me) (u_id me) = true /\
  timeline_of (outcome homepage (after (add_follow (u_id me)) w)) =
  timeline_of (outcome homepage w).
Proof.
  intros G. pose proof (g_user_found w me G) as Q.
  destruct (add_follow_world w me (u_id me) me G Q) as [S G1].
  split; [|split].
  - unfold outcome. now rewrite (add_follow_signed_in w me (u_id me) me G Q).
  - rewrite S. unfold is_following. cbn [store following_append follows].
    rewrite existsb_app. cbn [existsb]. rewrite edge_eqb_refl.
    apply orb_true_iff. right. reflexivity.
  - unfold outcome.
    rewrite (homepage_signed_in _ me G1), (homepage_signed_in w me G).
    cbn [fst timeline_of]. rewrite S. cbn [store following_append messages].
    f_equal. f_equal. f_equal. apply filter_ext. intros m.
    apply eq_iff_eq_true. rewrite !in_feed_iff.
    unfold is_following, following_append. cbn [follows].
    rewrite existsb_app, orb_true_iff.
    cbn [existsb]. rewrite orb_false_r. unfold edge_eqb at 2. cbn [fst snd].
    rewrite Z.eqb_refl, andb_true_l, Z.eqb_eq. intuition congruence.
Qed.

Lemma self_follow_keeps_timeline_witness :
  timeline_of (outcome homepage (after (add_follow 1) (signed_in db0 alice))) =
  Some [M_alice].
Proof.
  destruct (self_follow_keeps_timeline (signed_in db0 alice) alice eq_refl)
    as (_ & _ & H).
  exact (eq_trans H eq_refl).
Defined.

Section AccountEdges.

Variable generate_password_hash : string -> string.
Variable check_password_hash : string -> string -> bool.
Variable default_image_url : string.
Variable default_header_image_url : string.

(** X20: every request to the signup handler ends the session that was
    open: afterwards the session is unbound, unless the signup succeeded,
    in which case it is bound to the key of the new row. *)
Theorem signup_drops_session (w : World) (form : option UserAddForm) :
  let h := signup generate_password_hash default_image_url
                  default_header_image_url form in
  session (after h w) = None \/
  (outcome h w = Ok (Redirect "/") /\
   session (after h w) = Some (fresh_id (map u_id (users (store w))))).
Proof.
  intros h. unfold h, outcome, after. rewrite handle_ctx.
  unfold signup, signup_attempt, User_signup, do_logout, do_login, try_except.
  destruct form as [f|]; run_handler; [|now left].
  destruct (String.eqb (sf_password f) EmptyString);
    cbn [pending world g_user store session flashes fst snd]; [now left|].
  destruct (integrity_ok _ _);
    cbn [exn_eqb pending world g_user store session flashes fst snd u_id];
    [right; split; reflexivity | now left].
Qed.

(** X21: a profile update to a username that another user holds.  The
    password authenticates, the commit raises [IntegrityError], and
    [profile], unlike [signup], has no handler for it: the request ends in
    the uncaught exception and the tables are unchanged. *)
Theorem profile_duplicate_username_uncaught
        (w : World) (me other a : User) (f : EditUserForm) :
  g_user (add_user_to_g w) = Some me ->
  User_authenticate check_password_hash (store w) (username me) (ef_password f)
    = Some a ->
  NoDup (map u_id (users (store w))) ->
  In other (users (store w)) ->
  u_id other <> u_id me ->
  username other = ef_username f ->
  username me <> ef_username f ->
  outcome (profile check_password_hash (Some f)) w = Stop (Raise IntegrityError) /\
  after (profile check_password_hash (Some f)) w = w.
Proof.
  intros G A N Ho Hid Hname Hme.
  assert (I : integrity_ok (store w) (users_update (store w) (edited me f)) = false).
  { pose proof (g_user_found w me G) as Q.
    assert (Hin : In me (users (store w))).
    { unfold User_query_get in Q. now apply find_some in Q. }
    unfold integrity_ok. destruct (forallb _ _) eqn:F; [|reflexivity].
    rewrite forallb_forall in F. specialize (F (edited me f)).
    assert (D : In (edited me f) (dirty_users (store w)
                                    (users_update (store w) (edited me f)))).
    { unfold dirty_users. apply filter_In. split.
      - unfold users_update. cbn [users]. apply in_map_iff. exists me.
        split; [|exact Hin]. cbn [u_id edited]. now rewrite Z.eqb_refl.
      - apply negb_true_iff.
        destruct (existsb _ (users (store w))) eqn:X; [|reflexivity].
        apply existsb_exists in X. destruct X as [x [Hx X]].
        unfold user_eqb in X. rewrite !andb_true_iff in X.
        destruct X as [[[[[[[X1 X2] _] _] _] _] _] _].
        apply Z.eqb_eq in X1. apply String.eqb_eq in X2.
        cbn [u_id username edited] in X1, X2.
        assert (x = me).
        { pose proof (User_query_get_unique (store w) x N Hx) as Qx.
          rewrite <- X1, Q in Qx. congruence. }
        subst x. congruence. }
    specialize (F D). apply negb_true_iff in F.
    assert (C : collides (users_update (store w) (edited me f)) (edited me f) = true).
    { unfold collides. apply existsb_exists. exists other. split.
      - unfold users_update. cbn [users]. apply in_map_iff. exists other.
        split; [|exact Ho]. cbn [u_id edited].
        apply Z.eqb_neq in Hid. now rewrite Hid.
      - cbn [u_id username edited]. apply andb_true_iff. split.
        + apply negb_true_iff. now apply Z.eqb_neq.
        + apply orb_true_iff. left. rewrite Hname. apply String.eqb_refl. }
    congruence. }
  unfold outcome, after.
  rewrite (profile_authorized check_password_hash w me f a G A), I. auto.
Qed.

End AccountEdges.

Lemma profile_duplicate_username_uncaught_witness :
  outcome (profile toy_check
             (Some (mkEditUserForm "bob" "al@example.com" "i" "h" "b" "l" "alicepw")))
          (signed_in db0 alice) = Stop (Raise IntegrityError).
Proof.
  assert (N : NoDup (map u_id (users (store (signed_in db0 alice))))).
  { cbn. repeat constructor; cbn; intuition lia. }
  assert (Ho : In bob (users (store (signed_in db0 alice)))).
  { right. left. reflexivity. }
  assert (Hid : u_id bob <> u_id alice) by (cbn; lia).
  assert (Hme : username alice <> "bob"%string) by discriminate.
  destruct (profile_duplicate_username_uncaught toy_check (signed_in db0 alice)
              alice bob alice
              (mkEditUserForm "bob" "al@example.com" "i" "h" "b" "l" "alicepw")
              eq_refl eq_refl N Ho Hid eq_refl Hme) as [H _].
  exact H.
Defined.
